(** * The [unattend_iso_file] resource of terraform-provider-unattend

    A shallow embedding of [internal/provider/iso_resource.go]: the four
    lifecycle operations [Create], [Read], [Update] and [Delete] of
    [UnattendedISOResource], written as functions that thread an explicit
    [World] (file system, open file handles, ISO staging directories, the
    runtime's random source and the failures the outside world is about to
    produce).

    The Go code talks to three collaborators whose sources are not part of
    the repository.  They are embedded here from their published behaviour:
    - the Terraform plugin framework ([types.String], [diag.Diagnostics],
      [tfsdk.Plan]/[tfsdk.State] and the response the server hands to each
      operation);
    - the Go standard library ([strconv.Quote] behind the verb [%q],
      [os.Create], [os.CreateTemp], [File.Write]);
    - [github.com/kdomanski/iso9660] ([NewWriter], [AddFile], [WriteTo],
      [Cleanup]); the byte layout of an image is a parameter
      ([Iso9660Codec]). *)

From Stdlib Require Import Ascii String NArith.
From stdpp Require Import base strings gmap list pretty.

Open Scope string_scope.

(** ** Go standard library: [strconv] *)

(** The double quote byte, which delimits a quoted Go string. *)
Definition dquote : ascii := "034"%char.

(** [strconv.Quote] walks the runes of its argument and writes an escaped
    form of each between two double quotes.  Which runes are escaped depends
    on Unicode tables; the escaped body is therefore a parameter, and
    [ascii_escape] below is its value on ASCII text. *)
Class Strconv := { escape : string → string }.

Module strconv.
Definition Quote `{Strconv} (s : string) : string :=
  String dquote (escape s +:+ String dquote EmptyString).
End strconv.

(** ** Plugin framework: [types.String] *)

Module types.
(** A framework string is null, unknown, or a known Go string.  The zero
    value of the Go type is the null string. *)
Inductive StringT : Type :=
| StringNull
| StringUnknown
| StringValue (value : string).

(** [(basetypes.StringValue).String()], the method the resource calls on
    its fields: the human-readable rendering meant for logs.  The unknown
    and the null string print as [attr.UnknownValueString] and
    [attr.NullValueString]; a known value prints as
    [fmt.Sprintf("%q", value)], that is quoted.  (The raw value is what
    [ValueString()] returns; the resource never calls it.) *)
Definition String_ `{Strconv} (s : StringT) : string :=
  match s with
  | StringUnknown => "<unknown>"
  | StringNull => "<null>"
  | StringValue value => strconv.Quote value
  end.
End types.

Global Instance StringT_eq_dec : EqDecision types.StringT.
Proof. solve_decision. Defined.

(** ** Plugin framework: diagnostics *)

Module diag.
Inductive Severity : Type := SeverityError | SeverityWarning.

Record Diagnostic : Type := mkDiagnostic {
  severity : Severity;
  summary : string;
  detail : string
}.

Definition Diagnostics : Type := list Diagnostic.

Definition NewErrorDiagnostic (summary detail : string) : Diagnostic :=
  mkDiagnostic SeverityError summary detail.

Definition isError (d : Diagnostic) : bool :=
  match severity d with SeverityError => true | SeverityWarning => false end.

(** [Diagnostics.HasError] *)
Definition HasError (ds : Diagnostics) : bool := existsb isError ds.
End diag.

Global Instance Severity_eq_dec : EqDecision diag.Severity.
Proof. solve_decision. Defined.

Global Instance Diagnostic_eq_dec : EqDecision diag.Diagnostic.
Proof. solve_decision. Defined.

Module diags.
Import diag.

(** [Diagnostics.Contains] *)
Definition Contains (ds : Diagnostics) (d : Diagnostic) : bool :=
  bool_decide (d ∈ ds).

(** [Diagnostics.Append]: appends each new diagnostic that is not already
    present. *)
Fixpoint Append (ds : Diagnostics) (new : list Diagnostic) : Diagnostics :=
  match new with
  | [] => ds
  | d :: rest => Append (if Contains ds d then ds else (ds ++ [d])%list) rest
  end.

(** [Diagnostics.AddError] *)
Definition AddError (ds : Diagnostics) (summary detail : string) : Diagnostics :=
  Append ds [NewErrorDiagnostic summary detail].
End diags.

(** ** The resource data model *)

(** [UnattendedISOResourceModel] *)
Record UnattendedISOResourceModel : Type := mkModel {
  Id : types.StringT;
  FileName : types.StringT;
  PathOverride : types.StringT;
  XMLContent : types.StringT;
  ResultPath : types.StringT
}.

Global Instance Model_eq_dec : EqDecision UnattendedISOResourceModel.
Proof. solve_decision. Defined.

(** [var data UnattendedISOResourceModel]: every field is the null string. *)
Definition zero_Model : UnattendedISOResourceModel :=
  mkModel types.StringNull types.StringNull types.StringNull
          types.StringNull types.StringNull.

Definition set_Id (v : types.StringT) (d : UnattendedISOResourceModel) :=
  mkModel v (FileName d) (PathOverride d) (XMLContent d) (ResultPath d).

Definition set_ResultPath (v : types.StringT) (d : UnattendedISOResourceModel) :=
  mkModel (Id d) (FileName d) (PathOverride d) (XMLContent d) v.

(** ** Plugin framework: plan and state *)

Module tfsdk.
(** The raw value of a plan or a state for this schema: the null object
    (no resource) or an object with the five attributes. *)
Definition Raw : Type := option UnattendedISOResourceModel.

(** [Plan.Get(ctx, &data)] and [State.Get(ctx, &data)]: an object fills
    the target; the null object cannot be stored in a struct, which is a
    value conversion error and leaves the target as it was. *)
Definition Get (raw : Raw) (target : UnattendedISOResourceModel)
  : diag.Diagnostics * UnattendedISOResourceModel :=
  match raw with
  | Some obj => ([], obj)
  | None =>
      ([diag.NewErrorDiagnostic "Value Conversion Error"
          "unhandled null value"], target)
  end.

(** [State.Set(ctx, &data)]: the struct has exactly the attributes of the
    schema, so the conversion succeeds. *)
Definition Set_ (data : UnattendedISOResourceModel) : diag.Diagnostics * Raw :=
  ([], Some data).
End tfsdk.

(** The fields of [resource.CreateResponse], [ReadResponse],
    [UpdateResponse] and [DeleteResponse] that the resource touches. *)
Record Response : Type := mkResponse {
  Diagnostics : diag.Diagnostics;
  State : tfsdk.Raw
}.

Definition AppendDiagnostics (resp : Response) (new : diag.Diagnostics) : Response :=
  mkResponse (diags.Append (Diagnostics resp) new) (State resp).

Definition AddError (resp : Response) (summary detail : string) : Response :=
  mkResponse (diags.AddError (Diagnostics resp) summary detail) (State resp).

(** [resp.Diagnostics.Append(resp.State.Set(ctx, &data)...)] *)
Definition StateSet (resp : Response) (data : UnattendedISOResourceModel) : Response :=
  let '(ds, raw) := tfsdk.Set_ data in
  mkResponse (diags.Append (Diagnostics resp) ds) raw.

Record CreateRequest : Type := mkCreateRequest { create_Plan : tfsdk.Raw }.
Record ReadRequest : Type := mkReadRequest { read_State : tfsdk.Raw }.
Record UpdateRequest : Type :=
  mkUpdateRequest { update_Plan : tfsdk.Raw; update_State : tfsdk.Raw }.
Record DeleteRequest : Type := mkDeleteRequest { delete_State : tfsdk.Raw }.


(** ** The outside world *)

(** Failures that the outside world is about to produce.  A field that is
    [Some] makes the corresponding call return that error. *)
Record Faults : Type := mkFaults {
  fault_NewWriter : option string;
  fault_AddFile : option string;
  fault_WriteTo : option string;
  fault_Cleanup : option string;
  (** [open(2)] fails for a reason other than the file existing *)
  fault_open : option string;
  (** [write(2)] accepts only that many bytes and then fails *)
  fault_write : option (nat * string)
}.

Definition no_faults : Faults := mkFaults None None None None None None.

Record World : Type := mkWorld {
  (** regular files: path to content *)
  files : gmap string string;
  (** names of the [*os.File] handles that were opened and not closed *)
  open_files : list string;
  (** staging directories of ISO writers that were not cleaned up *)
  staging : nat;
  (** the numbers the runtime's random source hands to [os.CreateTemp], call
      after call; what other callers draw from the same source (the ISO
      writer, when it names its staging directory) is not part of it *)
  rand : nat → N;
  (** how many of them [os.CreateTemp] has drawn so far *)
  rand_pos : nat;
  (** what [time.Now] returns *)
  now : N;
  faults : Faults;
  (** the environment variable [TMPDIR]; empty when it is not set *)
  env_TMPDIR : string
}.

Definition set_files (fs : gmap string string) (w : World) : World :=
  mkWorld fs (open_files w) (staging w) (rand w) (rand_pos w) (now w) (faults w) (env_TMPDIR w).

Definition set_open_files (l : list string) (w : World) : World :=
  mkWorld (files w) l (staging w) (rand w) (rand_pos w) (now w) (faults w) (env_TMPDIR w).

Definition set_staging (n : nat) (w : World) : World :=
  mkWorld (files w) (open_files w) n (rand w) (rand_pos w) (now w) (faults w) (env_TMPDIR w).

Definition set_rand_pos (n : nat) (w : World) : World :=
  mkWorld (files w) (open_files w) (staging w) (rand w) n (now w) (faults w) (env_TMPDIR w).

(** ** Go standard library: [os] *)

(** The first [n] bytes of [s]. *)
Fixpoint string_take (n : nat) (s : string) : string :=
  match n, s with
  | S n', String c s' => String c (string_take n' s')
  | _, _ => EmptyString
  end.

(** Writing [b] at offset 0 over the content [old]. *)
Fixpoint overwrite (b old : string) : string :=
  match b with
  | EmptyString => old
  | String c b' =>
      String c (overwrite b' match old with
                             | EmptyString => EmptyString
                             | String _ old' => old'
                             end)
  end.

(** [s[:pos]] and [s[pos+1:]] for the last index [pos] of the byte [c] in
    [s], if there is one. *)
Fixpoint cut_last (c : ascii) (s : string) : option (string * string) :=
  match s with
  | EmptyString => None
  | String a rest =>
      match cut_last c rest with
      | Some (before, after) => Some (String a before, after)
      | None => if Ascii.eqb a c then Some (EmptyString, rest) else None
      end
  end.

Fixpoint string_exists (p : ascii → bool) (s : string) : bool :=
  match s with
  | EmptyString => false
  | String a rest => p a || string_exists p rest
  end.

Module os.
Inductive errno : Type :=
| EEXIST
| EOTHER (msg : string)
| errPatternHasSeparator.

Definition errno_Error (e : errno) : string :=
  match e with
  | EEXIST => "file exists"
  | EOTHER msg => msg
  | errPatternHasSeparator => "pattern contains path separator"
  end.

Record PathError : Type := mkPathError {
  Op : string;
  Path : string;
  Err : errno
}.

(** [PathError.Error], what [%s] prints. *)
Definition Error (e : PathError) : string :=
  Op e +:+ " " +:+ Path e +:+ ": " +:+ errno_Error (Err e).

Definition IsExist (e : PathError) : bool :=
  match Err e with EEXIST => true | _ => false end.

(** An open file; [Name] is the path it was opened with. *)
Record File : Type := mkFile { Name : string }.

Definition IsPathSeparator (c : ascii) : bool := Ascii.eqb c "/".

(** [os.TempDir] on Unix: [$TMPDIR], or [/tmp] when that is empty. *)
Definition TempDir (w : World) : string :=
  if bool_decide (env_TMPDIR w = EmptyString) then "/tmp" else env_TMPDIR w.

(** [OpenFile(name, O_RDWR|O_CREATE|O_EXCL, _)] when [excl], and
    [OpenFile(name, O_RDWR|O_CREATE|O_TRUNC, _)] otherwise.  Either way a
    successful call leaves an empty file at [name] and one more open
    handle. *)
Definition OpenFile (name : string) (excl : bool) (w : World)
  : (PathError + File) * World :=
  match fault_open (faults w) with
  | Some msg => (inl (mkPathError "open" name (EOTHER msg)), w)
  | None =>
      if excl && bool_decide (is_Some (files w !! name))
      then (inl (mkPathError "open" name EEXIST), w)
      else (inr (mkFile name),
            set_open_files (name :: open_files w)
              (set_files (<[name := EmptyString]> (files w)) w))
  end.

(** [os.Create] *)
Definition Create (name : string) (w : World) : (PathError + File) * World :=
  OpenFile name false w.

(** [File.Write] on a handle whose offset is 0.  The returned byte
    count is dropped, as the caller drops it. *)
Definition Write (f : File) (b : string) (w : World) : option string * World :=
  let old := default EmptyString (files w !! Name f) in
  match fault_write (faults w) with
  | Some (n, msg) =>
      (Some ("write " +:+ Name f +:+ ": " +:+ msg),
       set_files (<[Name f := overwrite (string_take n b) old]> (files w)) w)
  | None =>
      (None, set_files (<[Name f := overwrite b old]> (files w)) w)
  end.

(** [nextRandom], as [os.CreateTemp] calls it: the decimal digits of a
    random [uint32]. *)
Definition nextRandom (w : World) : string * World :=
  (pretty (rand w (rand_pos w) `mod` 2 ^ 32)%N, set_rand_pos (S (rand_pos w)) w).

(** [prefixAndSuffix] *)
Definition prefixAndSuffix (pattern : string) : errno + string * string :=
  if string_exists IsPathSeparator pattern then inl errPatternHasSeparator
  else match cut_last "*" pattern with
       | Some (prefix, suffix) => inr (prefix, suffix)
       | None => inr (pattern, EmptyString)
       end.

Definition last_byte (s : string) : option ascii :=
  last (list_ascii_of_string s).

(** [joinPath] *)
Definition joinPath (dir name : string) : string :=
  match last_byte dir with
  | Some c => if IsPathSeparator c then dir +:+ name else dir +:+ "/" +:+ name
  | None => dir +:+ "/" +:+ name
  end.

(** The retry loop of [CreateTemp]; [tries] is the number of attempts
    left. *)
Fixpoint CreateTemp_loop (tries : nat) (prefix suffix : string) (w : World)
  : (PathError + File) * World :=
  match tries with
  | O => (inl (mkPathError "createtemp" (prefix +:+ "*" +:+ suffix) EEXIST), w)
  | S tries' =>
      let '(r, w1) := nextRandom w in
      let name := prefix +:+ r +:+ suffix in
      match OpenFile name true w1 with
      | (inl err, w2) =>
          if IsExist err then CreateTemp_loop tries' prefix suffix w2
          else (inl err, w2)
      | (inr f, w2) => (inr f, w2)
      end
  end.

Definition maxTries : nat := N.to_nat 10000.

(** [os.CreateTemp] *)
Definition CreateTemp (dir pattern : string) (w : World)
  : (PathError + File) * World :=
  let dir := if bool_decide (dir = EmptyString) then TempDir w else dir in
  match prefixAndSuffix pattern with
  | inl err => (inl (mkPathError "createtemp" pattern err), w)
  | inr (prefix, suffix) =>
      CreateTemp_loop maxTries (joinPath dir prefix) suffix w
  end.
End os.

Arguments os.CreateTemp : simpl never.

(** ** The ISO-9660 library *)

(** The byte layout of an image is the library's business: an image is
    whatever [encode_image] makes of the time of writing (the volume
    descriptor is stamped with it), a volume identifier and the staged
    files, under the paths [AddFile] was given; reading an image back gives
    those files. *)
Class Iso9660Codec := {
  encode_image : N → string → list (string * string) → string;
  decode_image : string → option (list (string * string));
  decode_encode_image :
    ∀ time volume entries,
      decode_image (encode_image time volume entries) = Some entries
}.

Module iso9660.
(** An [*ImageWriter]: the files copied into its staging directory so far,
    as (path, content) pairs. *)
Record ImageWriter : Type := mkImageWriter { staged : list (string * string) }.

(** [iso9660.NewWriter]: makes a fresh staging directory with
    [os.MkdirTemp] in [os.TempDir()].  The name of that directory (random
    digits, drawn from the runtime's source before [os.CreateTemp] runs) is
    not tracked, only how many such directories there are; whether the call
    fails is for [faults] to say. *)
Definition NewWriter (w : World) : (string + ImageWriter) * World :=
  match fault_NewWriter (faults w) with
  | Some err => (inl err, w)
  | None => (inr (mkImageWriter []), set_staging (S (staging w)) w)
  end.

(** [AddFile(data, filePath)]: copies everything the reader yields to
    [filePath] inside the staging directory. *)
Definition AddFile (iw : ImageWriter) (data filePath : string) (w : World)
  : option string * ImageWriter :=
  match fault_AddFile (faults w) with
  | Some err => (Some err, iw)
  | None => (None, mkImageWriter (staged iw ++ [(filePath, data)])%list)
  end.

(** [WriteTo(&b, volumeIdentifier)]: the bytes that end up in the buffer. *)
Definition WriteTo `{Iso9660Codec} (iw : ImageWriter) (volumeIdentifier : string)
    (w : World) : string + string :=
  match fault_WriteTo (faults w) with
  | Some err => inl err
  | None => inr (encode_image (now w) volumeIdentifier (staged iw))
  end.

(** [Cleanup]: removes the staging directory. *)
Definition Cleanup (iw : ImageWriter) (w : World) : option string * World :=
  match fault_Cleanup (faults w) with
  | Some err => (Some err, w)
  | None => (None, set_staging (pred (staging w)) w)
  end.
End iso9660.

(** ** The resource: [UnattendedISOResource] *)

Section Resource.
Context `{Strconv} `{Iso9660Codec}.

(** [Create], lines 155-182: choosing the destination, writing the image
    and saving the state. *)
Definition Create_persist (data : UnattendedISOResourceModel) (b : string)
    (resp : Response) (w : World) : Response * World :=
  if bool_decide (types.String_ (PathOverride data) ≠ "tmp") then
    match os.CreateTemp "/tmp" (types.String_ (FileName data)) w with
    | (inl err, w) =>
        (AddError resp "Client Error"
           ("Error creating tmp file, got error: " +:+ os.Error err), w)
    | (inr file, w) =>
        match os.Write file b w with
        | (Some err, w) =>
            (AddError resp "Client Error"
               ("Error writing to tmp file, got error: " +:+ err), w)
        | (None, w) =>
            let data := set_ResultPath (types.StringValue (os.Name file)) data in
            (StateSet resp data, w)
        end
    end
  else
    match os.Create (types.String_ (PathOverride data)
                       +:+ types.String_ (FileName data)) w with
    | (inl err, w) =>
        (AddError resp "Client Error"
           ("Error creating file, got error: " +:+ os.Error err), w)
    | (inr file, w) =>
        match os.Write file b w with
        | (Some err, w) =>
            (AddError resp "Client Error"
               ("Error writing file, got error: " +:+ err), w)
        | (None, w) =>
            let data := set_ResultPath (types.StringValue (os.Name file)) data in
            (StateSet resp data, w)
        end
    end.

(** [Create], lines 137-150: staging [unattend.xml] and serialising the
    image into the buffer [b]. *)
Definition Create_build (data : UnattendedISOResourceModel)
    (isoWriter : iso9660.ImageWriter) (resp : Response) (w : World)
  : Response * World :=
  let '(err, isoWriter) :=
    if bool_decide (types.String_ (XMLContent data) ≠ EmptyString)
    then iso9660.AddFile isoWriter (types.String_ (XMLContent data))
           "unattend.xml" w
    else (None, isoWriter) in
  match err with
  | Some err =>
      (AddError resp "Client Error"
         ("Error adding file to ISO, got error: " +:+ err), w)
  | None =>
      match iso9660.WriteTo isoWriter "unattend" w with
      | inl err =>
          (AddError resp "Client Error"
             ("Error writing to ISO, got error: " +:+ err), w)
      | inr b => Create_persist data b resp w
      end
  end.

(** The deferred closure of [Create], run on every return that follows a
    successful [NewWriter]. *)
Definition Create_deferred (isoWriter : iso9660.ImageWriter)
    (resp : Response) (w : World) : Response * World :=
  match iso9660.Cleanup isoWriter w with
  | (Some err, w) =>
      (AddError resp "Client Error"
         ("Error in ISO Writer, got error: " +:+ err), w)
  | (None, w) => (resp, w)
  end.

(** [UnattendedISOResource.Create].  [resp] is the response as the
    caller hands it over; the result is the response and the world when the
    method returns. *)
Definition Create (req : CreateRequest) (resp : Response) (w : World)
  : Response * World :=
  let '(ds, data) := tfsdk.Get (create_Plan req) zero_Model in
  let resp := AppendDiagnostics resp ds in
  if diag.HasError (Diagnostics resp) then (resp, w)
  else
    let data := set_Id (types.StringValue "example-id") data in
    match iso9660.NewWriter w with
    | (inl err, w) =>
        (AddError resp "Client Error"
           ("Unable to start ISO Writer, got error: " +:+ err), w)
    | (inr isoWriter, w) =>
        let '(resp, w) := Create_build data isoWriter resp w in
        Create_deferred isoWriter resp w
    end.

(** [UnattendedISOResource.Read] *)
Definition Read (req : ReadRequest) (resp : Response) (w : World)
  : Response * World :=
  let '(ds, data) := tfsdk.Get (read_State req) zero_Model in
  let resp := AppendDiagnostics resp ds in
  if diag.HasError (Diagnostics resp) then (resp, w)
  else (StateSet resp data, w).

(** [UnattendedISOResource.Update] *)
Definition Update (req : UpdateRequest) (resp : Response) (w : World)
  : Response * World :=
  let '(ds, data) := tfsdk.Get (update_Plan req) zero_Model in
  let resp := AppendDiagnostics resp ds in
  if diag.HasError (Diagnostics resp) then (resp, w)
  else (StateSet resp data, w).

(** [UnattendedISOResource.Delete] *)
Definition Delete (req : DeleteRequest) (resp : Response) (w : World)
  : Response * World :=
  let '(ds, data) := tfsdk.Get (delete_State req) zero_Model in
  let resp := AppendDiagnostics resp ds in
  if diag.HasError (Diagnostics resp) then (resp, w)
  else (resp, w).

(** ** The framework server around the resource *)

(** The server calls [Create] with no diagnostics and the null state, and
    the other three operations with the prior state. *)
Definition empty_Response : Response := mkResponse [] None.

Definition prior_Response (prior : tfsdk.Raw) : Response := mkResponse [] prior.

Definition server_Create (plan : tfsdk.Raw) (w : World) : Response * World :=
  Create (mkCreateRequest plan) empty_Response w.

Definition server_Read (prior : tfsdk.Raw) (w : World) : Response * World :=
  Read (mkReadRequest prior) (prior_Response prior) w.

Definition server_Update (plan prior : tfsdk.Raw) (w : World) : Response * World :=
  Update (mkUpdateRequest plan prior) (prior_Response prior) w.

(** After a [Delete] that reported no error the server removes the state
    itself. *)
Definition server_Delete (prior : tfsdk.Raw) (w : World) : Response * World :=
  let '(resp, w) := Delete (mkDeleteRequest prior) (prior_Response prior) w in
  if diag.HasError (Diagnostics resp) then (resp, w)
  else (mkResponse (Diagnostics resp) None, w).

End Resource.

(** ** Vocabulary of the statements *)

(** The name [os.CreateTemp] tries in [/tmp] for the random number [n]. *)
Definition temp_name (prefix suffix : string) (n : N) : string :=
  "/tmp/" +:+ prefix +:+ pretty (n `mod` 2 ^ 32)%N +:+ suffix.

(** The world after [name] was created empty and opened, the random source
    having been read up to position [k]. *)
Definition temp_created (name : string) (k : nat) (w : World) : World :=
  set_open_files (name :: open_files w)
    (set_files (<[name := EmptyString]> (files w)) (set_rand_pos k w)).

(** The world in which [Create] runs once [NewWriter] has succeeded. *)
Definition after_NewWriter (w : World) : World := set_staging (S (staging w)) w.

(** None of the calls [Create] makes before it returns is about to fail
    ([Cleanup] apart). *)
Definition calm (w : World) : Prop :=
  fault_NewWriter (faults w) = None ∧ fault_AddFile (faults w) = None
  ∧ fault_WriteTo (faults w) = None ∧ fault_open (faults w) = None
  ∧ fault_write (faults w) = None.

(** The steps of [Create] that can fail. *)
Inductive Step : Type :=
| PlanDecode | WriterInit | FileAdd | Serialization | FileCreation | ByteWrite.

Section Vocabulary.
Context `{Strconv} `{Iso9660Codec}.

(** The image [Create] serialises for the declaration [d] at the time
    [time]: volume [unattend], one staged file. *)
Definition image_of (time : N) (d : UnattendedISOResourceModel) : string :=
  encode_image time "unattend" [("unattend.xml", types.String_ (XMLContent d))].

(** The call with which [Create] acquires its destination file, in the
    temp-file branch or in the literal-path branch (lines 155-168). *)
Definition destination (d : UnattendedISOResourceModel) (w : World)
  : (os.PathError + os.File) * World :=
  if bool_decide (types.String_ (PathOverride d) ≠ "tmp")
  then os.CreateTemp "/tmp" (types.String_ (FileName d)) w
  else os.Create (types.String_ (PathOverride d) +:+ types.String_ (FileName d)) w.

(** Step [s] of a [Create] on [plan] fails in the world [w]. *)
Definition step_fails (s : Step) (plan : tfsdk.Raw) (w : World) : Prop :=
  match s with
  | PlanDecode => diag.HasError (tfsdk.Get plan zero_Model).1 = true
  | WriterInit => is_Some (fault_NewWriter (faults w))
  | FileAdd => is_Some (fault_AddFile (faults w))
  | Serialization => is_Some (fault_WriteTo (faults w))
  | FileCreation =>
      ∃ d err w1, plan = Some d ∧ destination d (after_NewWriter w) = (inl err, w1)
  | ByteWrite => is_Some (fault_write (faults w))
  end.

(** A [Create] on [plan] in the world [w] gets as far as acquiring the
    destination file handle [f]. *)
Definition acquires (plan : tfsdk.Raw) (w : World) (f : os.File) : Prop :=
  ∃ d w1, plan = Some d
    ∧ fault_NewWriter (faults w) = None
    ∧ fault_AddFile (faults w) = None
    ∧ fault_WriteTo (faults w) = None
    ∧ destination d (after_NewWriter w) = (inr f, w1).

End Vocabulary.

(** ** Concrete collaborators for concrete runs *)

Definition backslash : ascii := "092"%char.

(** [lowerhex] *)
Definition hex_digit (n : N) : ascii :=
  if (n <? 10)%N then ascii_of_N (48 + n) else ascii_of_N (87 + n).

(** What [strconv.Quote] writes for one byte of ASCII text: the quote and
    the backslash are backslashed, printable bytes are copied, the seven
    control characters with a name use it and every other byte is written
    as [\x] and two hexadecimal digits.  (Go does the same to a byte above
    127 that is not part of a valid UTF-8 sequence; the concrete runs below
    only use ASCII.) *)
Definition escape_byte (c : ascii) : string :=
  let n := N_of_ascii c in
  if Ascii.eqb c dquote || Ascii.eqb c backslash
  then String backslash (String c EmptyString)
  else if (32 <=? n)%N && (n <? 127)%N then String c EmptyString
  else if (n =? 7)%N then String backslash "a"
  else if (n =? 8)%N then String backslash "b"
  else if (n =? 12)%N then String backslash "f"
  else if (n =? 10)%N then String backslash "n"
  else if (n =? 13)%N then String backslash "r"
  else if (n =? 9)%N then String backslash "t"
  else if (n =? 11)%N then String backslash "v"
  else String backslash
         (String "x" (String (hex_digit (n / 16)) (String (hex_digit (n mod 16)) EmptyString))).

Fixpoint ascii_escape (s : string) : string :=
  match s with
  | EmptyString => EmptyString
  | String c rest => escape_byte c +:+ ascii_escape rest
  end.

Definition ascii_Strconv : Strconv := {| escape := ascii_escape |}.

(** A stand-in for the ISO-9660 layout: the bits of the number that codes
    the time, the volume identifier and the entries. *)
Fixpoint bits_of_pos (p : positive) : string :=
  match p with
  | xH => EmptyString
  | xO q => String "0" (bits_of_pos q)
  | xI q => String "1" (bits_of_pos q)
  end.

Fixpoint pos_of_bits (s : string) : option positive :=
  match s with
  | EmptyString => Some xH
  | String c rest =>
      match pos_of_bits rest with
      | Some q =>
          if Ascii.eqb c "0" then Some (xO q)
          else if Ascii.eqb c "1" then Some (xI q)
          else None
      | None => None
      end
  end.

Definition stub_encode (time : N) (volume : string)
    (entries : list (string * string)) : string :=
  bits_of_pos (encode (time, volume, entries)).

Definition stub_decode (image : string) : option (list (string * string)) :=
  match pos_of_bits image with
  | Some p =>
      match decode (A := N * string * list (string * string)) p with
      | Some (_, entries) => Some entries
      | None => None
      end
  | None => None
  end.

Lemma pos_of_bits_of_pos (p : positive) : pos_of_bits (bits_of_pos p) = Some p.
Proof. induction p as [q IH|q IH|]; simpl; by rewrite ?IH. Qed.

Lemma stub_decode_encode time volume entries :
  stub_decode (stub_encode time volume entries) = Some entries.
Proof.
  unfold stub_decode, stub_encode.
  by rewrite pos_of_bits_of_pos, decode_encode.
Qed.

Definition stub_Iso9660Codec : Iso9660Codec :=
  {| encode_image := stub_encode;
     decode_image := stub_decode;
     decode_encode_image := stub_decode_encode |}.

(** A world with no file, no open handle, no failure in sight, whose random
    source counts 7, 8, 9, ... *)
Definition quiet_world : World :=
  mkWorld ∅ [] 0 (λ i, N.of_nat (7 + i)) 0 1700000000 no_faults EmptyString.

Definition with_faults (f : Faults) (w : World) : World :=
  mkWorld (files w) (open_files w) (staging w) (rand w) (rand_pos w) (now w) f
    (env_TMPDIR w).

(** The declaration of the README: a file name, an override and a payload. *)
Definition declaration (file_name path_override xml_content : string)
  : UnattendedISOResourceModel :=
  mkModel types.StringUnknown (types.StringValue file_name)
    (types.StringValue path_override) (types.StringValue xml_content)
    types.StringUnknown.

(** The declarations and worlds of the concrete runs. *)
Definition answer_plan : tfsdk.Raw := Some (declaration "answer.iso" "tmp" "<x/>").

Definition data_plan : tfsdk.Raw := Some (declaration "answer.iso" "/data/" "<x/>").

Definition empty_xml_plan : tfsdk.Raw :=
  Some (declaration "answer.iso" "tmp" EmptyString).

(** The name the first run in [quiet_world] gets: the quoted file name
    followed by the random number 7. *)
Definition answer_path : string :=
  "/tmp/" +:+ String dquote ("answer.iso" +:+ String dquote "7").

(** The state the first run in [quiet_world] saves for [answer_plan]. *)
Definition answer_saved : UnattendedISOResourceModel :=
  mkModel (types.StringValue "example-id") (types.StringValue "answer.iso")
    (types.StringValue "tmp") (types.StringValue "<x/>")
    (types.StringValue answer_path).

(** The plan of an update that changes the payload of [answer_saved]. *)
Definition changed_plan : tfsdk.Raw :=
  Some (mkModel (types.StringValue "example-id") (types.StringValue "answer.iso")
          (types.StringValue "tmp") (types.StringValue "<y/>")
          (types.StringValue answer_path)).

(** A world whose ISO library cannot make a staging directory. *)
Definition no_staging_world : World :=
  with_faults (mkFaults (Some "mkdir /tmp/1: no space left on device")
                 None None None None None) quiet_world.

(** A world whose disk takes three bytes of a write and then is full. *)
Definition short_write_world : World :=
  with_faults (mkFaults None None None None None
                 (Some (3, "no space left on device"))) quiet_world.


(** ** The rest of the resource *)

Definition set_PathOverride (v : types.StringT) (d : UnattendedISOResourceModel) :=
  mkModel (Id d) (FileName d) v (XMLContent d) (ResultPath d).

(** The [tfsdk] tags of the fields of [UnattendedISOResourceModel], in the
    order of the struct. *)
Definition Model_tags : list string :=
  ["id"; "file_name"; "path_override"; "xml_content"; "result_path"].

Record MetadataRequest : Type := mkMetadataRequest { ProviderTypeName : string }.
Record MetadataResponse : Type := mkMetadataResponse { TypeName : string }.

(** [UnattendedISOResource.Metadata] *)
Definition Metadata (req : MetadataRequest) (resp : MetadataResponse)
  : MetadataResponse :=
  mkMetadataResponse (ProviderTypeName req +:+ "unattend_iso_file").

Module schema.
Inductive PlanModifier : Type := UseStateForUnknown.

(** [schema.StringAttribute], with the fields the resource sets; a field
    the Go literal leaves out has its zero value. *)
Record StringAttribute : Type := mkStringAttribute {
  MarkdownDescription : string;
  Optional : bool;
  Required : bool;
  Computed : bool;
  Default : option string;
  PlanModifiers : list PlanModifier
}.
End schema.

Global Instance PlanModifier_eq_dec : EqDecision schema.PlanModifier.
Proof. solve_decision. Defined.

Global Instance StringAttribute_eq_dec : EqDecision schema.StringAttribute.
Proof. solve_decision. Defined.

(** [UnattendedISOResource.Schema]: the attributes of [resp.Schema]. *)
Definition Schema : gmap string schema.StringAttribute :=
  list_to_map
    [ ("path_override",
       schema.mkStringAttribute
         "Path to write the local ISO file, defaults to OS temp"
         true false true (Some "tmp") []);
      ("file_name",
       schema.mkStringAttribute "Name for the created ISO file"
         false true false None []);
      ("xml_content",
       schema.mkStringAttribute "XML content for the unattend.xml file."
         false true false None []);
      ("id",
       schema.mkStringAttribute "ISO identifier"
         false false true None [schema.UseStateForUnknown]);
      ("result_path",
       schema.mkStringAttribute "Resultant File Path"
         false false true None [schema.UseStateForUnknown]) ].

Record ImportStateRequest : Type := mkImportStateRequest { import_ID : string }.

(** [resp.State.SetAttribute(ctx, path.Root("id"), value)]: the attribute is
    set in the object of the state; a null state first becomes an object
    whose attributes are all null. *)
Definition State_SetAttribute_id (raw : tfsdk.Raw) (value : string)
  : diag.Diagnostics * tfsdk.Raw :=
  ([], Some (set_Id (types.StringValue value) (default zero_Model raw))).

(** [resource.ImportStatePassthroughID(ctx, path.Root("id"), req, resp)].
    The path is not the empty path, so no diagnostic is added for it; the
    attribute is set when the request carries an ID, and an empty ID leaves
    the state as it is (framework 1.15 and later; earlier versions set the
    attribute to the empty string). *)
Definition ImportStatePassthroughID_id (req : ImportStateRequest) (resp : Response)
  : Response :=
  if bool_decide (import_ID req ≠ EmptyString) then
    let '(ds, raw) := State_SetAttribute_id (State resp) (import_ID req) in
    mkResponse (diags.Append (Diagnostics resp) ds) raw
  else resp.

(** [UnattendedISOResource.ImportState] *)
Definition ImportState (req : ImportStateRequest) (resp : Response) (w : World)
  : Response * World :=
  (ImportStatePassthroughID_id req resp, w).

(** The server calls [ImportState] with no diagnostics and the null state. *)
Definition server_ImportState (id : string) (w : World) : Response * World :=
  ImportState (mkImportStateRequest id) empty_Response w.

(** ** The provider: [UnattendISOProvider] *)

Record UnattendISOProvider : Type := mkProvider { version : string }.

(** The resources a provider can list; there is one. *)
Inductive Resource : Type := UnattendedISOResource.

(** [NewUnattendedISOResource] *)
Definition NewUnattendedISOResource : Resource := UnattendedISOResource.

(** [New]: the provider that the returned function makes. *)
Definition New (version : string) : UnattendISOProvider := mkProvider version.

Record ProviderMetadataResponse : Type := mkProviderMetadataResponse {
  provider_TypeName : string;
  provider_Version : string
}.

(** [UnattendISOProvider.Metadata] *)
Definition Provider_Metadata (p : UnattendISOProvider)
    (resp : ProviderMetadataResponse) : ProviderMetadataResponse :=
  mkProviderMetadataResponse "unattend" (version p).

(** [UnattendISOProvider.Resources] *)
Definition Provider_Resources (p : UnattendISOProvider) : list Resource :=
  [NewUnattendedISOResource].

(** [UnattendISOProvider.DataSources]; no data source type exists. *)
Definition Provider_DataSources (p : UnattendISOProvider) : list Empty_set := [].

(** The type names under which the server registers the resources of [p]:
    each resource's [Metadata] is given the type name the provider's
    [Metadata] reports. *)
Definition registered_type_names (p : UnattendISOProvider) : list string :=
  let meta := Provider_Metadata p (mkProviderMetadataResponse EmptyString EmptyString) in
  map (λ r, match r with
            | UnattendedISOResource =>
                TypeName (Metadata (mkMetadataRequest (provider_TypeName meta))
                            (mkMetadataResponse EmptyString))
            end)
      (Provider_Resources p).




(** A world in which the first temporary name is taken. *)
Definition collision_world : World :=
  mkWorld {[ answer_path := "old" ]} [] 0 (rand quiet_world) 0 (now quiet_world)
    no_faults EmptyString.

(** A world whose random source always returns 7, the name for 7 being
    taken. *)
Definition stuck_world : World :=
  mkWorld {[ answer_path := "old" ]} [] 0 (λ _, 7%N) 0 (now quiet_world) no_faults
    EmptyString.

(** A world in which the staging directory cannot be removed. *)
Definition no_cleanup_world : World :=
  with_faults (mkFaults None None None (Some "unlinkat /tmp/1: permission denied")
                 None None) quiet_world.

(** The second temporary name in [quiet_world] and [collision_world]. *)
Definition second_path : string :=
  "/tmp/" +:+ String dquote ("answer.iso" +:+ String dquote "8").

(** * Properties *)

Section Facts.
Context `{Strconv} `{Iso9660Codec}.

(** ** Renderings never equal the strings they are compared with *)

Lemma String__not_tmp (v : types.StringT) : types.String_ v ≠ "tmp".
Proof. destruct v as [| |s]; simpl; discriminate. Qed.

Lemma String__not_empty (v : types.StringT) : types.String_ v ≠ EmptyString.
Proof. destruct v as [| |s]; simpl; discriminate. Qed.

(** The literal-path branch of [Create] is therefore dead code. *)
Lemma destination_temp d w :
  destination d w = os.CreateTemp "/tmp" (types.String_ (FileName d)) w.
Proof. unfold destination. by rewrite bool_decide_true by apply String__not_tmp. Qed.

(** ** The standard library calls *)

Lemma overwrite_empty (b : string) : overwrite b EmptyString = b.
Proof. induction b as [|c b IH]; simpl; by rewrite ?IH. Qed.

Lemma CreateTemp_loop_inr n prefix suffix w f w' :
  os.CreateTemp_loop n prefix suffix w = (inr f, w') →
  ∃ k, let name := prefix +:+ pretty (rand w k `mod` 2 ^ 32)%N +:+ suffix in
       (rand_pos w ≤ k)%nat ∧ f = os.mkFile name ∧ files w !! name = None
       ∧ fault_open (faults w) = None ∧ w' = temp_created name (S k) w.
Proof.
  revert w. induction n as [|n IH]; intros w; simpl; [discriminate|].
  unfold os.OpenFile; simpl.
  destruct (fault_open (faults w)) as [msg|] eqn:Hf; simpl; [discriminate|].
  set (name := prefix +:+ _ +:+ suffix).
  destruct (files w !! name) as [c|] eqn:Hn; simpl.
  - intros Hrec.
    apply IH in Hrec as (k & Hk & -> & Hfree & Hopen & ->). simpl in *.
    exists k. repeat split; try done. lia.
  - intros [= <- <-].
    exists (rand_pos w). repeat split; try done.
Qed.

Lemma CreateTemp_loop_inl n prefix suffix w err w' :
  os.CreateTemp_loop n prefix suffix w = (inl err, w') →
  ∃ k, w' = set_rand_pos k w.
Proof.
  revert w. induction n as [|n IH]; intros w; simpl.
  - intros [= <- <-]. exists (rand_pos w). by destruct w.
  - unfold os.OpenFile; simpl.
    destruct (fault_open (faults w)) as [msg|] eqn:Hf; simpl.
    + intros [= <- <-]. by eexists.
    + set (name := prefix +:+ _ +:+ suffix).
      destruct (bool_decide (is_Some (files w !! name))); simpl; [|discriminate].
      intros Hrec. apply IH in Hrec as (k & ->). by exists k.
Qed.

Lemma CreateTemp_loop_first_free n prefix suffix w :
  fault_open (faults w) = None →
  files w !! (prefix +:+ pretty (rand w (rand_pos w) `mod` 2 ^ 32)%N +:+ suffix) = None →
  os.CreateTemp_loop (S n) prefix suffix w =
    (inr (os.mkFile (prefix +:+ pretty (rand w (rand_pos w) `mod` 2 ^ 32)%N +:+ suffix)),
     temp_created (prefix +:+ pretty (rand w (rand_pos w) `mod` 2 ^ 32)%N +:+ suffix)
       (S (rand_pos w)) w).
Proof.
  intros Hopen Hfree. simpl. unfold os.OpenFile. simpl. by rewrite Hopen, Hfree.
Qed.

Lemma maxTries_succ : os.maxTries = S (N.to_nat 9999).
Proof. unfold os.maxTries. by rewrite <- N2Nat.inj_succ. Qed.

(** A temporary file that [os.CreateTemp] made in [/tmp] did not exist
    before, and is now empty and open. *)
Lemma CreateTemp_tmp_inr pattern w f w' :
  os.CreateTemp "/tmp" pattern w = (inr f, w') →
  ∃ prefix suffix k,
    os.prefixAndSuffix pattern = inr (prefix, suffix)
    ∧ f = os.mkFile (temp_name prefix suffix (rand w k))
    ∧ files w !! temp_name prefix suffix (rand w k) = None
    ∧ fault_open (faults w) = None
    ∧ w' = temp_created (temp_name prefix suffix (rand w k)) (S k) w.
Proof.
  unfold os.CreateTemp.
  destruct (os.prefixAndSuffix pattern) as [e|[prefix suffix]]; [discriminate|].
  intros Hloop. apply CreateTemp_loop_inr in Hloop as (k & _ & ? & ? & ? & ?).
  by exists prefix, suffix, k.
Qed.

(** A failed [os.CreateTemp] leaves no file and no handle behind. *)
Lemma CreateTemp_tmp_inl pattern w err w' :
  os.CreateTemp "/tmp" pattern w = (inl err, w') → ∃ k, w' = set_rand_pos k w.
Proof.
  unfold os.CreateTemp.
  destruct (os.prefixAndSuffix pattern) as [e|[prefix suffix]].
  - intros [= <- <-]. exists (rand_pos w). by destruct w.
  - apply CreateTemp_loop_inl.
Qed.


(** ** Diagnostics *)

Lemma HasError_AddError ds summary detail :
  diag.HasError (diags.AddError ds summary detail) = true.
Proof.
  unfold diags.AddError, diags.Append, diags.Contains, diag.HasError.
  case_bool_decide as Hin.
  - apply existsb_exists. exists (diag.NewErrorDiagnostic summary detail).
    split; [by apply list_elem_of_In|done].
  - rewrite existsb_app. simpl. by rewrite orb_true_r.
Qed.

Lemma Create_deferred_error iw resp w :
  diag.HasError (Diagnostics resp) = true →
  diag.HasError (Diagnostics (Create_deferred iw resp w).1) = true
  ∧ State (Create_deferred iw resp w).1 = State resp.
Proof.
  intros Herr. unfold Create_deferred, iso9660.Cleanup.
  destruct (fault_Cleanup (faults w)); simpl; [|done].
  split; [apply HasError_AddError|done].
Qed.

(** ** What a [Create] that saved a state has done *)

Ltac unfold_Create :=
  unfold server_Create, Create, Create_deferred, Create_build, Create_persist,
    iso9660.NewWriter, iso9660.AddFile, iso9660.WriteTo, iso9660.Cleanup,
    os.Write in *.

Ltac always_temp :=
  rewrite !bool_decide_true by (apply String__not_tmp || apply String__not_empty).

Lemma Create_success plan w r w' d' :
  server_Create plan w = (r, w') → State r = Some d' →
  ∃ d prefix suffix k,
    plan = Some d
    ∧ os.prefixAndSuffix (types.String_ (FileName d)) = inr (prefix, suffix)
    ∧ d' = set_ResultPath (types.StringValue (temp_name prefix suffix (rand w k)))
             (set_Id (types.StringValue "example-id") d)
    ∧ files w !! temp_name prefix suffix (rand w k) = None
    ∧ files w' = <[temp_name prefix suffix (rand w k) := image_of (now w) d]> (files w)
    ∧ open_files w' = temp_name prefix suffix (rand w k) :: open_files w.
Proof.
  unfold_Create. destruct plan as [d|]; simpl; [|by intros [= <- <-]].
  always_temp.
  destruct (fault_NewWriter (faults w)); simpl; [by intros [= <- <-]|].
  destruct (fault_AddFile (faults w)); simpl.
  { destruct (fault_Cleanup (faults w)); simpl; by intros [= <- <-]. }
  destruct (fault_WriteTo (faults w)); simpl.
  { destruct (fault_Cleanup (faults w)); simpl; by intros [= <- <-]. }
  destruct (os.CreateTemp _ _ _) as [[err|f] w1] eqn:Htemp.
  { apply CreateTemp_tmp_inl in Htemp as [k ->]; simpl.
    destruct (fault_Cleanup (faults w)); simpl; by intros [= <- <-]. }
  apply CreateTemp_tmp_inr in Htemp
    as (prefix & suffix & k & Hpat & -> & Hfree & Hopen & ->).
  simpl. destruct (fault_write (faults w)) as [[n msg]|]; simpl.
  { destruct (fault_Cleanup (faults w)); simpl; by intros [= <- <-]. }
  intros Hrun Hstate. exists d, prefix, suffix, k.
  rewrite lookup_insert_eq, overwrite_empty, insert_insert_eq in Hrun. simpl in Hrun.
  destruct (fault_Cleanup (faults w)); simpl in *; injection Hrun as <- <-;
    simpl in *; by simplify_eq.
Qed.

Lemma Create_written plan w r w' d' :
  server_Create plan w = (r, w') → State r = Some d' →
  ∃ d path, plan = Some d ∧ ResultPath d' = types.StringValue path
    ∧ files w !! path = None ∧ files w' !! path = Some (image_of (now w) d).
Proof.
  intros Hrun Hst.
  destruct (Create_success _ _ _ _ _ Hrun Hst)
    as (d & prefix & suffix & k & -> & _ & -> & Hfree & Hfiles & _).
  eexists d, _. repeat split; [done|]. rewrite Hfiles. apply lookup_insert_eq.
Qed.


Lemma image_of_decodes time d :
  decode_image (image_of time d)
  = Some [("unattend.xml", types.String_ (XMLContent d))].
Proof. apply decode_encode_image. Qed.

(** ** The claims *)

(** C1: a declaration whose path_override is [/data/] and whose file name is
    [answer.iso] is not written to [/data/answer.iso].  Whatever the world,
    the payload and the ISO layout, a [Create] that saves a state has made
    its file with [os.CreateTemp] in [/tmp] and has recorded that name: the
    recorded path differs from [/data/answer.iso], and nothing was created
    or changed at [/data/answer.iso]. *)
Theorem Create_override_written_to_tmp
    (d d' : UnattendedISOResourceModel) (w w' : World) (r : Response) :
  PathOverride d = types.StringValue "/data/" →
  FileName d = types.StringValue "answer.iso" →
  server_Create (Some d) w = (r, w') → State r = Some d' →
  (∃ base, ResultPath d' = types.StringValue ("/tmp/" +:+ base)
           ∧ files w' = <["/tmp/" +:+ base := image_of (now w) d]> (files w))
  ∧ ResultPath d' ≠ types.StringValue "/data/answer.iso"
  ∧ files w' !! "/data/answer.iso" = files w !! "/data/answer.iso".
Proof.
  intros _ _ Hrun Hst.
  destruct (Create_success _ _ _ _ _ Hrun Hst)
    as (d0 & prefix & suffix & k & [= <-] & _ & -> & _ & Hfiles & _).
  split; [|split].
  - by exists (prefix +:+ pretty (rand w k `mod` 2 ^ 32)%N +:+ suffix).
  - simpl. unfold temp_name. discriminate.
  - rewrite Hfiles. apply lookup_insert_ne. unfold temp_name. discriminate.
Qed.


(** C3: a declaration whose xml_content is the empty string still gets an
    [unattend.xml] entry.  The image a successful [Create] writes decodes to
    exactly one file, [unattend.xml], whose content is the quoted rendering
    of the empty string. *)
Theorem Create_empty_xml_adds_unattend
    (d d' : UnattendedISOResourceModel) (w w' : World) (r : Response) :
  XMLContent d = types.StringValue EmptyString →
  server_Create (Some d) w = (r, w') → State r = Some d' →
  ∃ path image,
    ResultPath d' = types.StringValue path
    ∧ files w' !! path = Some image
    ∧ decode_image image = Some [("unattend.xml", strconv.Quote EmptyString)].
Proof.
  intros Hxml Hrun Hst.
  destruct (Create_written _ _ _ _ _ Hrun Hst) as (d0 & path & [= <-] & Hp & _ & Hfile).
  exists path, (image_of (now w) d). split; [done|]. split; [done|].
  rewrite image_of_decodes. by rewrite Hxml.
Qed.

(** C4: the bytes stored as [unattend.xml] are not xml_content.  For a
    non-empty xml_content [xml], the image a successful [Create] writes
    decodes to the file [unattend.xml] holding [strconv.Quote xml]: a double
    quote, the escaped payload, a double quote.  That differs from [xml]
    unless [xml] itself starts with a double quote. *)
Theorem Create_stores_quoted_xml
    (d d' : UnattendedISOResourceModel) (xml : string) (w w' : World) (r : Response) :
  XMLContent d = types.StringValue xml → xml ≠ EmptyString →
  server_Create (Some d) w = (r, w') → State r = Some d' →
  ∃ path image,
    ResultPath d' = types.StringValue path
    ∧ files w' !! path = Some image
    ∧ decode_image image =
        Some [("unattend.xml", String dquote (escape xml +:+ String dquote EmptyString))]
    ∧ ((∀ rest, xml ≠ String dquote rest) →
       String dquote (escape xml +:+ String dquote EmptyString) ≠ xml).
Proof.
  intros Hxml _ Hrun Hst.
  destruct (Create_written _ _ _ _ _ Hrun Hst) as (d0 & path & [= <-] & Hp & _ & Hfile).
  exists path, (image_of (now w) d). split; [done|]. split; [done|]. split.
  - rewrite image_of_decodes. by rewrite Hxml.
  - intros Hhead Heq. by apply (Hhead (escape xml +:+ String dquote EmptyString)).
Qed.

(** C5: when a step of [Create] fails (plan decode, writer initialisation,
    file add, image serialisation, file creation or byte write), the
    response carries an error and its state is still the null state the
    server started with. *)
Theorem Create_failure_commits_nothing (s : Step) (plan : tfsdk.Raw) (w : World) :
  step_fails s plan w →
  diag.HasError (Diagnostics (server_Create plan w).1) = true
  ∧ State (server_Create plan w).1 = None.
Proof.
  intros Hfail. unfold server_Create, Create.
  destruct plan as [d|]; simpl; [|done].
  unfold iso9660.NewWriter.
  destruct (fault_NewWriter (faults w)) as [e|] eqn:HNew; simpl; [done|].
  fold (after_NewWriter w).
  destruct (Create_build _ _ _ _) as [r1 w1] eqn:Hbuild.
  cut (diag.HasError (Diagnostics r1) = true ∧ State r1 = None).
  { intros [Herr Hst].
    destruct (Create_deferred_error (iso9660.mkImageWriter []) r1 w1 Herr) as [? ?].
    split; [done|congruence]. }
  revert Hbuild.
  unfold Create_build, Create_persist, iso9660.AddFile, iso9660.WriteTo, os.Write.
  always_temp. simpl.
  destruct (fault_AddFile (faults w)) as [e|] eqn:HAdd; simpl.
  { by intros [= <- <-]. }
  destruct (fault_WriteTo (faults w)) as [e|] eqn:HWr; simpl.
  { by intros [= <- <-]. }
  destruct (os.CreateTemp _ _ _) as [[err|f] w2] eqn:Htemp.
  { by intros [= <- <-]. }
  pose proof Htemp as Htemp'.
  apply CreateTemp_tmp_inr in Htemp' as (prefix & suffix & k & _ & -> & _ & _ & ->).
  simpl. destruct (fault_write (faults w)) as [[n msg]|] eqn:HW; simpl.
  { by intros [= <- <-]. }
  exfalso. destruct s; simpl in Hfail.
  - discriminate.
  - rewrite HNew in Hfail. by destruct Hfail.
  - rewrite HAdd in Hfail. by destruct Hfail.
  - rewrite HWr in Hfail. by destruct Hfail.
  - destruct Hfail as (d0 & err & w3 & [= <-] & Hdest).
    rewrite destination_temp in Hdest. rewrite Hdest in Htemp. discriminate.
  - rewrite HW in Hfail. by destruct Hfail.
Qed.

(** C6: [Read] is a passthrough.  The state in its response is the prior
    state, the world is the one it started in, and the response is the same
    in every world: it does not depend on any file. *)
Theorem Read_is_passthrough (prior : tfsdk.Raw) (w : World) :
  State (server_Read prior w).1 = prior
  ∧ (server_Read prior w).2 = w
  ∧ (∀ req resp, (Read req resp w).2 = w)
  ∧ (∀ w2, (server_Read prior w2).1 = (server_Read prior w).1).
Proof.
  repeat split.
  - by destruct prior.
  - by destruct prior.
  - intros req resp. unfold Read. destruct (tfsdk.Get _ _). by case_match.
  - intros w2. by destruct prior.
Qed.

(** C7: [Update] leaves the world as it is and saves the plan as the new
    state; after a [Create] that saved a state, an [Update] with any plan
    leaves the image that [Create] wrote at result_path. *)
Theorem Update_no_filesystem_effect :
  (∀ plan prior w,
     (server_Update plan prior w).2 = w
     ∧ (∀ req resp, (Update req resp w).2 = w)
     ∧ (∀ d, plan = Some d → State (server_Update plan prior w).1 = Some d))
  ∧ (∀ d w0 r w d' plan,
       server_Create (Some d) w0 = (r, w) → State r = Some d' →
       ∃ path, ResultPath d' = types.StringValue path
         ∧ files w !! path = Some (image_of (now w0) d)
         ∧ files (server_Update plan (State r) w).2 !! path
           = Some (image_of (now w0) d)).
Proof.
  split.
  - intros plan prior w. repeat split.
    + by destruct plan.
    + intros req resp. unfold Update. destruct (tfsdk.Get _ _). by case_match.
    + by intros d ->.
  - intros d w0 r w d' plan Hrun Hst.
    destruct (Create_written _ _ _ _ _ Hrun Hst)
      as (d0 & path & [= <-] & Hp & _ & Hfile).
    exists path. repeat split; try done. by destruct plan.
Qed.

(** C8: [Delete] leaves the world as it is and the state is gone
    afterwards; after a [Create] that saved a state, the image is still at
    result_path when [Delete] has returned. *)
Theorem Delete_keeps_image_file :
  (∀ prior w,
     (server_Delete prior w).2 = w
     ∧ (∀ req resp, (Delete req resp w).2 = w)
     ∧ State (server_Delete prior w).1 = None)
  ∧ (∀ d w0 r w d',
       server_Create (Some d) w0 = (r, w) → State r = Some d' →
       ∃ path, ResultPath d' = types.StringValue path
         ∧ files w !! path = Some (image_of (now w0) d)
         ∧ State (server_Delete (State r) w).1 = None
         ∧ files (server_Delete (State r) w).2 !! path
           = Some (image_of (now w0) d)).
Proof.
  split.
  - intros prior w. repeat split.
    + by destruct prior.
    + intros req resp. unfold Delete. destruct (tfsdk.Get _ _). by case_match.
    + by destruct prior.
  - intros d w0 r w d' Hrun Hst.
    destruct (Create_written _ _ _ _ _ Hrun Hst)
      as (d0 & path & [= <-] & Hp & _ & Hfile).
    exists path. rewrite Hst. by repeat split.
Qed.

(** C9, as the code has it: [Create] never closes the destination file.  In
    every execution that acquires the handle, that handle is still open
    when [Create] returns, whether the write succeeded or failed; what is
    released is the staging directory of the ISO writer, when [Cleanup]
    does not fail. *)
Theorem Create_leaves_handle_open (plan : tfsdk.Raw) (w : World) (f : os.File) :
  acquires plan w f →
  open_files (server_Create plan w).2 = os.Name f :: open_files w
  ∧ (fault_Cleanup (faults w) = None → staging (server_Create plan w).2 = staging w).
Proof.
  intros (d & w1 & -> & HNew & HAdd & HWr & Hdest).
  rewrite destination_temp in Hdest. unfold after_NewWriter in Hdest.
  unfold_Create. simpl. always_temp.
  rewrite HNew. simpl. rewrite HAdd. simpl. rewrite HWr, Hdest.
  apply CreateTemp_tmp_inr in Hdest as (prefix & suffix & k & _ & -> & _ & _ & ->).
  simpl.
  destruct (fault_write (faults w)) as [[n msg]|]; simpl;
    by destruct (fault_Cleanup (faults w)).
Qed.

(** C10: every [Create] that saves a state sets the id to the constant
    [example-id], so two declarations, whatever they declare, get the same
    id. *)
Theorem Create_assigns_constant_id
    (plan1 plan2 : tfsdk.Raw) (w1 w2 : World) (d1 d2 : UnattendedISOResourceModel) :
  State (server_Create plan1 w1).1 = Some d1 →
  State (server_Create plan2 w2).1 = Some d2 →
  Id d1 = types.StringValue "example-id" ∧ Id d2 = Id d1.
Proof.
  intros H1 H2.
  destruct (server_Create plan1 w1) as [r1 w1'] eqn:Hrun1.
  destruct (server_Create plan2 w2) as [r2 w2'] eqn:Hrun2.
  destruct (Create_success _ _ _ _ _ Hrun1 H1) as (? & ? & ? & ? & _ & _ & -> & _).
  destruct (Create_success _ _ _ _ _ Hrun2 H2) as (? & ? & ? & ? & _ & _ & -> & _).
  done.
Qed.

(** ** More about [Create] *)

(** Case analysis on a run of [Create] with a plan: the faults one after
    the other, and the outcome of [os.CreateTemp]. *)
Ltac Create_paths w :=
  unfold_Create; simpl; always_temp;
  destruct (fault_NewWriter (faults w)) eqn:HNew; simpl;
  [|destruct (fault_AddFile (faults w)) eqn:HAdd; simpl;
    [|destruct (fault_WriteTo (faults w)) eqn:HWr; simpl;
      [|destruct (os.CreateTemp _ _ _) as [[?err|?f] ?w] eqn:Htemp;
        pose proof Htemp as Htemp0;
        [apply CreateTemp_tmp_inl in Htemp as [?k ->]
        |apply CreateTemp_tmp_inr in Htemp
           as (?prefix & ?suffix & ?k & Hpat & -> & Hfree & Hopen & ->);
         simpl; destruct (fault_write (faults w)) as [[?n ?msg]|] eqn:HW];
        simpl]]];
  destruct (fault_Cleanup (faults w)) eqn:HCl; simpl.

(** X2: [Create] never removes or overwrites a file: every file of the
    world it starts in is there afterwards, with the same content, whether
    [Create] succeeds or fails. *)
Theorem Create_keeps_existing_files (plan : tfsdk.Raw) (w : World) :
  files w ⊆ files (server_Create plan w).2.
Proof.
  destruct plan as [d|]; [|done].
  Create_paths w; try done.
  all: rewrite lookup_insert_eq, insert_insert_eq; by apply insert_subseteq.
Qed.

(** X1: [Create] saves a state exactly when none of its six steps fails. *)
Theorem Create_saves_state_iff (plan : tfsdk.Raw) (w : World) :
  is_Some (State (server_Create plan w).1) ↔ ∀ s, ¬ step_fails s plan w.
Proof.
  destruct plan as [d|];
    [|split; [by intros [? ?]|]; intros Hno; by destruct (Hno PlanDecode)].
  Create_paths w.
  all: split.
  all: try (intros Hst; by destruct Hst).
  all: try (intros Hno; by eexists).
  all: try (intros Hno; exfalso; apply (Hno WriterInit); simpl; rewrite HNew; by eexists).
  all: try (intros Hno; exfalso; apply (Hno FileAdd); simpl; rewrite HAdd; by eexists).
  all: try (intros Hno; exfalso; apply (Hno Serialization); simpl; rewrite HWr; by eexists).
  all: try (intros Hno; exfalso; apply (Hno ByteWrite); simpl; rewrite HW; by eexists).
  1,2: intros Hno; exfalso; apply (Hno FileCreation); simpl; eexists d, _, _;
    (split; [done|]); rewrite destination_temp; exact Htemp0.
  all: intros _ st Hs; destruct st; simpl in Hs;
    [ discriminate
    | rewrite HNew in Hs; by destruct Hs
    | rewrite HAdd in Hs; by destruct Hs
    | rewrite HWr in Hs; by destruct Hs
    | destruct Hs as (d0 & e & w3 & [= <-] & Hd);
      rewrite destination_temp in Hd; unfold after_NewWriter in Hd;
      rewrite Htemp0 in Hd; discriminate
    | rewrite HW in Hs; by destruct Hs ].
Qed.

(** X3: when the write fails after [n] bytes, [Create] saves no state and
    reports an error, and the new file stays behind holding the first [n]
    bytes of the image. *)
Theorem Create_short_write_leaves_partial_file
    (d : UnattendedISOResourceModel) (w : World) (f : os.File) (n : nat) (msg : string) :
  acquires (Some d) w f →
  fault_write (faults w) = Some (n, msg) →
  State (server_Create (Some d) w).1 = None
  ∧ diag.HasError (Diagnostics (server_Create (Some d) w).1) = true
  ∧ files w !! os.Name f = None
  ∧ files (server_Create (Some d) w).2
    = <[os.Name f := string_take n (image_of (now w) d)]> (files w).
Proof.
  intros (d0 & w2 & [= <-] & HNew' & HAdd' & HWr' & Hdest) HW'.
  rewrite destination_temp in Hdest. unfold after_NewWriter in Hdest.
  Create_paths w; try congruence.
  all: injection Hdest as <- <-; simpl.
  all: rewrite lookup_insert_eq, insert_insert_eq, overwrite_empty.
  all: injection HW' as <- <-.
  all: repeat split; first [done | apply HasError_AddError].
Qed.

(** X4: when a step other than the byte write fails, [Create] leaves the
    files and the open handles exactly as they were. *)
Theorem Create_failure_before_write_leaves_no_trace
    (s : Step) (plan : tfsdk.Raw) (w : World) :
  s ≠ ByteWrite → step_fails s plan w →
  files (server_Create plan w).2 = files w
  ∧ open_files (server_Create plan w).2 = open_files w.
Proof.
  intros Hs Hfail. destruct plan as [d|]; [|done].
  Create_paths w; try done.
  all: exfalso; destruct s; simpl in Hfail;
    [ discriminate
    | rewrite HNew in Hfail; by destruct Hfail
    | rewrite HAdd in Hfail; by destruct Hfail
    | rewrite HWr in Hfail; by destruct Hfail
    | destruct Hfail as (d0 & e & w3 & [= <-] & Hd);
      rewrite destination_temp in Hd; unfold after_NewWriter in Hd;
      rewrite Htemp0 in Hd; discriminate
    | done ].
Qed.

(** X5: when [Cleanup] does not fail, no staging directory is left behind
    by [Create], on any path; when a writer was made and [Cleanup] fails,
    one staging directory is left and an error is reported. *)
Theorem Create_staging (plan : tfsdk.Raw) (w : World) :
  (fault_Cleanup (faults w) = None →
   staging (server_Create plan w).2 = staging w)
  ∧ (∀ d e, plan = Some d → fault_NewWriter (faults w) = None →
       fault_Cleanup (faults w) = Some e →
       staging (server_Create plan w).2 = S (staging w)
       ∧ diag.HasError (Diagnostics (server_Create plan w).1) = true).
Proof.
  destruct plan as [d|]; [|by split].
  Create_paths w; (split; [done|]); intros d0 e [= <-] ? ?;
    try discriminate; (split; [done|]); first [done | apply HasError_AddError].
Qed.

(** X6: a [Create] that has saved a state reports an error exactly when the
    deferred [Cleanup] failed: an error does not always mean that no state
    was saved. *)
Theorem Create_saved_state_error_iff_Cleanup (plan : tfsdk.Raw) (w : World) :
  is_Some (State (server_Create plan w).1) →
  (diag.HasError (Diagnostics (server_Create plan w).1) = true
   ↔ is_Some (fault_Cleanup (faults w))).
Proof.
  destruct plan as [d|]; [|by intros [? ?]].
  Create_paths w; intros Hst; by destruct Hst.
Qed.

(** X7: [Create] ignores path_override.  With another value for it the
    world afterwards and the diagnostics are the same, and the saved state
    differs only in the path_override it echoes. *)
Theorem Create_ignores_path_override
    (d : UnattendedISOResourceModel) (v : types.StringT) (w : World) :
  (server_Create (Some (set_PathOverride v d)) w).2 = (server_Create (Some d) w).2
  ∧ Diagnostics (server_Create (Some (set_PathOverride v d)) w).1
    = Diagnostics (server_Create (Some d) w).1
  ∧ State (server_Create (Some (set_PathOverride v d)) w).1
    = set_PathOverride v <$> State (server_Create (Some d) w).1.
Proof. Create_paths w; done. Qed.

(** ** Collisions of temporary names *)

Lemma CreateTemp_loop_skip k : ∀ n prefix suffix w,
  (k < n)%nat →
  fault_open (faults w) = None →
  (∀ i, (i < k)%nat →
     is_Some (files w !! (prefix +:+ pretty (rand w (rand_pos w + i) `mod` 2 ^ 32)%N
                            +:+ suffix))) →
  files w !! (prefix +:+ pretty (rand w (rand_pos w + k) `mod` 2 ^ 32)%N +:+ suffix)
    = None →
  os.CreateTemp_loop n prefix suffix w =
    (inr (os.mkFile (prefix +:+ pretty (rand w (rand_pos w + k) `mod` 2 ^ 32)%N
                       +:+ suffix)),
     temp_created (prefix +:+ pretty (rand w (rand_pos w + k) `mod` 2 ^ 32)%N +:+ suffix)
       (S (rand_pos w + k)) w).
Proof.
  induction k as [|k IH]; intros n prefix suffix w Hlt Hopen Htaken Hfree.
  - destruct n as [|n]; [lia|]. rewrite Nat.add_0_r in *.
    by apply CreateTemp_loop_first_free.
  - destruct n as [|n]; [lia|]. simpl. unfold os.OpenFile. simpl. rewrite Hopen.
    destruct (Htaken 0%nat ltac:(lia)) as [c Hc]. rewrite Nat.add_0_r in Hc.
    rewrite Hc. simpl.
    rewrite (IH n prefix suffix (set_rand_pos (S (rand_pos w)) w)); simpl.
    + by rewrite Nat.add_succ_r.
    + lia.
    + done.
    + intros i Hi. rewrite <- Nat.add_succ_r. apply Htaken. lia.
    + by rewrite <- Nat.add_succ_r.
Qed.

Lemma CreateTemp_loop_exhausted n : ∀ prefix suffix w,
  fault_open (faults w) = None →
  (∀ i, (i < n)%nat →
     is_Some (files w !! (prefix +:+ pretty (rand w (rand_pos w + i) `mod` 2 ^ 32)%N
                            +:+ suffix))) →
  os.CreateTemp_loop n prefix suffix w =
    (inl (os.mkPathError "createtemp" (prefix +:+ "*" +:+ suffix) os.EEXIST),
     set_rand_pos (rand_pos w + n) w).
Proof.
  induction n as [|n IH]; intros prefix suffix w Hopen Htaken.
  - simpl. rewrite Nat.add_0_r. by destruct w.
  - simpl. unfold os.OpenFile. simpl. rewrite Hopen.
    destruct (Htaken 0%nat ltac:(lia)) as [c Hc]. rewrite Nat.add_0_r in Hc.
    rewrite Hc. simpl.
    rewrite (IH prefix suffix (set_rand_pos (S (rand_pos w)) w)); simpl.
    + by rewrite Nat.add_succ_r.
    + done.
    + intros i Hi. rewrite <- Nat.add_succ_r. apply Htaken. lia.
Qed.

(** X8: when the first [k] names [os.CreateTemp] tries are taken and the
    next one is free, [Create] uses that one, and [os.CreateTemp] has drawn
    [k + 1] random numbers. *)
Theorem Create_retries_on_collision
    (d : UnattendedISOResourceModel) (w : World) (prefix suffix : string) (k : nat) :
  calm w →
  os.prefixAndSuffix (types.String_ (FileName d)) = inr (prefix, suffix) →
  (k < os.maxTries)%nat →
  (∀ i, (i < k)%nat →
     is_Some (files w !! temp_name prefix suffix (rand w (rand_pos w + i)))) →
  files w !! temp_name prefix suffix (rand w (rand_pos w + k)) = None →
  State (server_Create (Some d) w).1 =
    Some (set_ResultPath
            (types.StringValue (temp_name prefix suffix (rand w (rand_pos w + k))))
            (set_Id (types.StringValue "example-id") d))
  ∧ rand_pos (server_Create (Some d) w).2 = S (rand_pos w + k).
Proof.
  intros (HNew & HAdd & HWr & Hopen & HW) Hpat Hlt Htaken Hfree.
  assert (os.CreateTemp "/tmp" (types.String_ (FileName d)) (after_NewWriter w)
          = (inr (os.mkFile (temp_name prefix suffix (rand w (rand_pos w + k)))),
             temp_created (temp_name prefix suffix (rand w (rand_pos w + k)))
               (S (rand_pos w + k)) (after_NewWriter w))) as Htemp.
  { unfold os.CreateTemp. rewrite Hpat.
    exact (CreateTemp_loop_skip k os.maxTries (os.joinPath "/tmp" prefix) suffix
             (after_NewWriter w) Hlt Hopen Htaken Hfree). }
  unfold after_NewWriter in Htemp.
  unfold_Create; simpl; always_temp.
  rewrite HNew. simpl. rewrite HAdd. simpl. rewrite HWr, Htemp.
  simpl. rewrite HW. simpl.
  by destruct (fault_Cleanup (faults w)).
Qed.

(** X9: when all the names [os.CreateTemp] tries are taken, [Create] gives
    up after the [maxTries] attempts of [os.CreateTemp]: an error, no state,
    no file made, no handle opened. *)
Theorem Create_gives_up_after_maxTries
    (d : UnattendedISOResourceModel) (w : World) (prefix suffix : string) :
  fault_NewWriter (faults w) = None → fault_AddFile (faults w) = None →
  fault_WriteTo (faults w) = None → fault_open (faults w) = None →
  os.prefixAndSuffix (types.String_ (FileName d)) = inr (prefix, suffix) →
  (∀ i, (i < os.maxTries)%nat →
     is_Some (files w !! temp_name prefix suffix (rand w (rand_pos w + i)))) →
  State (server_Create (Some d) w).1 = None
  ∧ diag.HasError (Diagnostics (server_Create (Some d) w).1) = true
  ∧ files (server_Create (Some d) w).2 = files w
  ∧ open_files (server_Create (Some d) w).2 = open_files w
  ∧ rand_pos (server_Create (Some d) w).2 = (rand_pos w + os.maxTries)%nat.
Proof.
  intros HNew HAdd HWr Hopen Hpat Htaken.
  assert (os.CreateTemp "/tmp" (types.String_ (FileName d)) (after_NewWriter w)
          = (inl (os.mkPathError "createtemp" ("/tmp/" +:+ prefix +:+ "*" +:+ suffix)
                    os.EEXIST),
             set_rand_pos (rand_pos w + os.maxTries) (after_NewWriter w))) as Htemp.
  { unfold os.CreateTemp. rewrite Hpat.
    exact (CreateTemp_loop_exhausted os.maxTries (os.joinPath "/tmp" prefix) suffix
             (after_NewWriter w) Hopen Htaken). }
  unfold after_NewWriter in Htemp.
  unfold_Create; simpl; always_temp.
  rewrite HNew. simpl. rewrite HAdd. simpl. rewrite HWr, Htemp. simpl.
  destruct (fault_Cleanup (faults w)); simpl; repeat split;
    first [done | apply HasError_AddError].
Qed.

(** ** The shape of the recorded name *)

Lemma string_app_nil_r (s : string) : s +:+ EmptyString = s.
Proof.
  induction s as [|c s IH]; [done|].
  change (String c (s +:+ EmptyString) = String c s). by rewrite IH.
Qed.

Lemma cut_last_None c s :
  cut_last c s = None → string_exists (Ascii.eqb c) s = false.
Proof.
  induction s as [|a s IH]; simpl; [done|].
  destruct (cut_last c s) as [[p q]|]; [done|].
  rewrite (Ascii.eqb_sym c a). destruct (Ascii.eqb a c); [done|]. intros _. by apply IH.
Qed.

Lemma cut_last_Some c s p q :
  cut_last c s = Some (p, q) →
  s = p +:+ String c q ∧ string_exists (Ascii.eqb c) q = false.
Proof.
  revert p q. induction s as [|a s IH]; simpl; intros p q; [done|].
  destruct (cut_last c s) as [[p' q']|] eqn:Hcut.
  - intros [= <- <-]. destruct (IH p' q' eq_refl) as [-> Hq]. by split.
  - destruct (Ascii.eqb a c) eqn:Hac; [|done]. intros [= <- <-].
    apply Ascii.eqb_eq in Hac as ->. split; [done|]. by apply cut_last_None.
Qed.

(** X10: where the random digits go.  If the rendering of file_name has no
    star they are appended to it, so the recorded path ends in digits; else
    they replace its last star. *)
Theorem Create_name_shape
    (d d' : UnattendedISOResourceModel) (w w' : World) (r : Response) :
  server_Create (Some d) w = (r, w') → State r = Some d' →
  ∃ n,
    (string_exists (Ascii.eqb "*") (types.String_ (FileName d)) = false
     ∧ ResultPath d' = types.StringValue
         ("/tmp/" +:+ types.String_ (FileName d) +:+ pretty (n `mod` 2 ^ 32)%N))
    ∨ (∃ p q,
         types.String_ (FileName d) = p +:+ String "*" q
         ∧ string_exists (Ascii.eqb "*") q = false
         ∧ ResultPath d' = types.StringValue
             ("/tmp/" +:+ p +:+ pretty (n `mod` 2 ^ 32)%N +:+ q)).
Proof.
  intros Hrun Hst.
  destruct (Create_success _ _ _ _ _ Hrun Hst)
    as (d0 & prefix & suffix & k & [= <-] & Hpat & -> & _).
  exists (rand w k). unfold os.prefixAndSuffix in Hpat.
  destruct (string_exists os.IsPathSeparator _); [done|].
  destruct (cut_last "*" (types.String_ (FileName d))) as [[p q]|] eqn:Hcut.
  - injection Hpat as <- <-. right. exists p, q.
    destruct (cut_last_Some _ _ _ _ Hcut) as [Hs Hq]. by repeat split.
  - injection Hpat as <- <-. left. split; [by apply cut_last_None|].
    simpl. unfold temp_name. by rewrite string_app_nil_r.
Qed.

(** A pattern with a path separator: [os.CreateTemp] refuses it before it
    tries any name. *)
Lemma Create_separator_in_pattern (d : UnattendedISOResourceModel) (w : World) :
  string_exists os.IsPathSeparator (types.String_ (FileName d)) = true →
  State (server_Create (Some d) w).1 = None
  ∧ diag.HasError (Diagnostics (server_Create (Some d) w).1) = true
  ∧ files (server_Create (Some d) w).2 = files w
  ∧ open_files (server_Create (Some d) w).2 = open_files w
  ∧ rand_pos (server_Create (Some d) w).2 = rand_pos w.
Proof.
  intros Hsep.
  assert (∀ w0, os.CreateTemp "/tmp" (types.String_ (FileName d)) w0
          = (inl (os.mkPathError "createtemp" (types.String_ (FileName d))
                    os.errPatternHasSeparator), w0)) as Htemp.
  { intros w0. unfold os.CreateTemp, os.prefixAndSuffix. by rewrite Hsep. }
  unfold_Create; simpl; always_temp.
  destruct (fault_NewWriter (faults w)); simpl;
    [|destruct (fault_AddFile (faults w)); simpl;
      [|destruct (fault_WriteTo (faults w)); simpl; [|rewrite Htemp; simpl]]];
    destruct (fault_Cleanup (faults w)); simpl; repeat split;
    first [done | apply HasError_AddError].
Qed.

(** ** Composing the operations *)

(** X12: [Create], [Delete], [Create] again: the second image has another
    path, and the first image is still on disk although no state refers to
    it any more. *)
Theorem Create_Delete_Create_leaves_old_image
    (d1 d1' d2' : UnattendedISOResourceModel) (plan2 : tfsdk.Raw)
    (w0 w1 w2 : World) (r1 r2 : Response) :
  server_Create (Some d1) w0 = (r1, w1) → State r1 = Some d1' →
  server_Create plan2 (server_Delete (State r1) w1).2 = (r2, w2) →
  State r2 = Some d2' →
  ∃ p1 p2,
    ResultPath d1' = types.StringValue p1
    ∧ ResultPath d2' = types.StringValue p2
    ∧ p1 ≠ p2
    ∧ files w2 !! p1 = Some (image_of (now w0) d1)
    ∧ is_Some (files w2 !! p2)
    ∧ State (server_Delete (State r1) w1).1 = None.
Proof.
  intros Hrun1 Hst1 Hrun2 Hst2.
  assert ((server_Delete (State r1) w1).2 = w1) as Hdel by (by rewrite Hst1).
  rewrite Hdel in Hrun2.
  destruct (Create_written _ _ _ _ _ Hrun1 Hst1) as (d & p1 & [= <-] & Hp1 & _ & Hf1).
  destruct (Create_success _ _ _ _ _ Hrun2 Hst2)
    as (d2 & prefix & suffix & k & _ & _ & -> & Hfree2 & Hfiles2 & _).
  exists p1, (temp_name prefix suffix (rand w1 k)).
  assert (temp_name prefix suffix (rand w1 k) ≠ p1) as Hne
    by (intros Heq; rewrite Heq in Hfree2; congruence).
  split; [done|]. split; [done|]. split; [done|]. rewrite Hfiles2.
  split; [by rewrite lookup_insert_ne|].
  split; [rewrite lookup_insert_eq; by eexists|]. by rewrite Hst1.
Qed.

End Facts.

(** ** The other operations, the schema and the provider *)

(** X13: a null state given to [Read] or [Delete], and a null plan given to
    [Update], is reported as an error, and nothing else is; [Update] then
    keeps the prior state, and with a plan its response does not depend on
    the prior state. *)
Theorem null_input_is_an_error (w : World) :
  (∀ prior, diag.HasError (Diagnostics (server_Read prior w).1) = true ↔ prior = None)
  ∧ (∀ prior, diag.HasError (Diagnostics (server_Delete prior w).1) = true ↔ prior = None)
  ∧ (∀ plan prior,
       diag.HasError (Diagnostics (server_Update plan prior w).1) = true ↔ plan = None)
  ∧ (∀ prior, State (server_Update None prior w).1 = prior)
  ∧ (∀ d prior1 prior2,
       (server_Update (Some d) prior1 w).1 = (server_Update (Some d) prior2 w).1).
Proof.
  split; [|split; [|split; [|split]]].
  - intros [d|]; split; done.
  - intros [d|]; split; done.
  - intros [d|] prior; split; done.
  - done.
  - done.
Qed.

(** X14: [Metadata] appends [unattend_iso_file] to the provider type name
    with no underscore between them, so the type name is never the provider
    type name, an underscore and a resource name; the provider made by
    [New] registers its only resource as [unattendunattend_iso_file],
    reports the version it was made with and has no data source. *)
Theorem type_name_has_no_separator (req : MetadataRequest) (resp : MetadataResponse) :
  (∀ rest, TypeName (Metadata req resp) ≠ ProviderTypeName req +:+ "_" +:+ rest)
  ∧ (∀ version,
       registered_type_names (New version) = ["unattendunattend_iso_file"]
       ∧ provider_Version
           (Provider_Metadata (New version)
              (mkProviderMetadataResponse EmptyString EmptyString)) = version
       ∧ Provider_DataSources (New version) = []).
Proof.
  split; [|done].
  intros rest Heq. unfold Metadata in Heq. simpl in Heq.
  apply (inj (String.app (ProviderTypeName req))) in Heq. discriminate.
Qed.

(** X15: [ImportState] accepts every non-empty id without a diagnostic and
    without looking at the world; the state it seeds, and the state after
    the [Read] that follows, has that id and null for every other
    attribute, result_path included. *)
Theorem ImportState_then_Read (id : string) (w : World) :
  id ≠ EmptyString →
  server_ImportState id w
    = (mkResponse [] (Some (set_Id (types.StringValue id) zero_Model)), w)
  ∧ server_Read (State (server_ImportState id w).1) (server_ImportState id w).2
    = (mkResponse [] (Some (mkModel (types.StringValue id) types.StringNull
                              types.StringNull types.StringNull types.StringNull)), w).
Proof.
  intros Hid.
  assert (server_ImportState id w
          = (mkResponse [] (Some (set_Id (types.StringValue id) zero_Model)), w)) as Himp.
  { unfold server_ImportState, ImportState, ImportStatePassthroughID_id. simpl.
    by rewrite bool_decide_true. }
  split; [exact Himp|]. by rewrite Himp.
Qed.

(** X16: the schema has exactly the attributes the model has fields for;
    file_name and xml_content are the required ones, path_override is the
    only optional one and the only one with a default, [tmp]; id and
    result_path are computed only. *)
Theorem Schema_matches_model :
  dom Schema = list_to_set Model_tags
  ∧ (∀ name a, Schema !! name = Some a →
       (schema.Required a = true ↔ name = "file_name" ∨ name = "xml_content")
       ∧ (schema.Optional a = true ↔ name = "path_override")
       ∧ (schema.Computed a = false → schema.Required a = true)
       ∧ (schema.Default a = if bool_decide (name = "path_override")
                             then Some "tmp" else None)).
Proof.
  split; [by vm_compute|].
  intros name a. unfold Schema. simpl.
  repeat (rewrite lookup_insert; destruct (decide _) as [<-|?];
          [intros [= <-]; simpl|]).
  all: try (rewrite lookup_empty; discriminate).
  all: repeat split; try done; try (by left); try (by right); try (by intros [?|?]).
Qed.

(** ** File names with a slash *)

Lemma string_exists_app p a b :
  string_exists p (a +:+ b) = string_exists p a || string_exists p b.
Proof.
  induction a as [|c a IH]; [done|].
  change (p c || string_exists p (a +:+ b) = p c || string_exists p a || string_exists p b).
  by rewrite IH, orb_assoc.
Qed.

Section SlashFacts.
Context `{Strconv} `{Iso9660Codec}.

(** X11: when quoting keeps a slash, as [strconv.Quote] does (a slash is
    printable and is neither the quote nor the backslash), a file_name that
    contains a slash makes [Create] fail before [os.CreateTemp] tries any
    name: an error, no state, no file made, no handle opened, no random
    number drawn by [os.CreateTemp]. *)
Theorem Create_rejects_slash
    (d : UnattendedISOResourceModel) (name : string) (w : World) :
  (∀ s, string_exists os.IsPathSeparator s = true →
        string_exists os.IsPathSeparator (escape s) = true) →
  FileName d = types.StringValue name →
  string_exists os.IsPathSeparator name = true →
  State (server_Create (Some d) w).1 = None
  ∧ diag.HasError (Diagnostics (server_Create (Some d) w).1) = true
  ∧ files (server_Create (Some d) w).2 = files w
  ∧ open_files (server_Create (Some d) w).2 = open_files w
  ∧ rand_pos (server_Create (Some d) w).2 = rand_pos w.
Proof.
  intros Hkeeps Hname Hsep. apply Create_separator_in_pattern.
  rewrite Hname. simpl.
  change (string_exists os.IsPathSeparator
            (escape name +:+ String dquote EmptyString) = true).
  rewrite string_exists_app, (Hkeeps _ Hsep). done.
Qed.

End SlashFacts.

(** The escaping of ASCII text keeps a slash. *)
Lemma ascii_escape_keeps_separator name :
  string_exists os.IsPathSeparator name = true →
  string_exists os.IsPathSeparator (ascii_escape name) = true.
Proof.
  induction name as [|c name IH]; simpl; [done|].
  rewrite string_exists_app. intros [Hc|Hrest]%orb_true_iff.
  - apply Ascii.eqb_eq in Hc as ->. done.
  - rewrite (IH Hrest). apply orb_true_r.
Qed.

(** * Concrete runs *)

Section Runs.
#[local] Existing Instance ascii_Strconv.
#[local] Existing Instance stub_Iso9660Codec.

(** The rendering of the sentinel is five bytes long: it is not the
    sentinel. *)
Example String__of_tmp :
  types.String_ (types.StringValue "tmp") = String dquote ("tmp" +:+ String dquote EmptyString)
  ∧ bool_decide (types.String_ (types.StringValue "tmp") ≠ "tmp") = true.
Proof. by vm_compute. Qed.

Example String__of_empty :
  types.String_ (types.StringValue EmptyString) = String dquote (String dquote EmptyString).
Proof. reflexivity. Qed.

(** Quotes and backslashes inside a value are escaped. *)
Example String__escapes :
  types.String_ (types.StringValue ("<a b=" +:+ String dquote ("c" +:+ String dquote "/>")))
  = String dquote ("<a b=" +:+ String backslash (String dquote
      ("c" +:+ String backslash (String dquote ("/>" +:+ String dquote EmptyString))))).
Proof. by vm_compute. Qed.

(** The sentinel declaration, in a quiet world. *)
Example run_answer :
  server_Create answer_plan quiet_world =
    (mkResponse [] (Some answer_saved),
     mkWorld
       {[ answer_path := image_of (now quiet_world) (declaration "answer.iso" "tmp" "<x/>") ]}
       [answer_path] 0 (rand quiet_world) 1 (now quiet_world) no_faults EmptyString).
Proof. by vm_compute. Qed.

(** The same declaration with an override: the same file in [/tmp]. *)
Example run_data :
  State (server_Create data_plan quiet_world).1 =
    Some (mkModel (types.StringValue "example-id") (types.StringValue "answer.iso")
            (types.StringValue "/data/") (types.StringValue "<x/>")
            (types.StringValue answer_path))
  ∧ dom (files (server_Create data_plan quiet_world).2) = {[ answer_path ]}.
Proof. by vm_compute. Qed.

(** A file name with a slash is refused by [os.CreateTemp]. *)
Example run_slash :
  server_Create (Some (declaration "a/b.iso" "tmp" "<x/>")) quiet_world =
    (mkResponse
       [diag.NewErrorDiagnostic "Client Error"
          ("Error creating tmp file, got error: createtemp "
           +:+ String dquote ("a/b.iso" +:+ String dquote
                 ": pattern contains path separator"))]
       None,
     quiet_world).
Proof. by vm_compute. Qed.

(** ** The claims on concrete runs *)

(** C1 on the declaration with override [/data/] in the quiet world. *)
Lemma Create_override_written_to_tmp_run :
  ∃ d', State (server_Create data_plan quiet_world).1 = Some d'
    ∧ ((∃ base, ResultPath d' = types.StringValue ("/tmp/" +:+ base)
          ∧ files (server_Create data_plan quiet_world).2 =
              <["/tmp/" +:+ base :=
                  image_of (now quiet_world) (declaration "answer.iso" "/data/" "<x/>")]>
                (files quiet_world))
       ∧ ResultPath d' ≠ types.StringValue "/data/answer.iso"
       ∧ files (server_Create data_plan quiet_world).2 !! "/data/answer.iso"
         = files quiet_world !! "/data/answer.iso").
Proof.
  eexists. split; [by vm_compute|].
  eapply (Create_override_written_to_tmp (declaration "answer.iso" "/data/" "<x/>")
            _ quiet_world).
  - reflexivity.
  - reflexivity.
  - apply surjective_pairing.
  - by vm_compute.
Defined.



(** C3 on the declaration with an empty payload. *)
Lemma Create_empty_xml_adds_unattend_run :
  ∃ d', State (server_Create empty_xml_plan quiet_world).1 = Some d'
    ∧ ∃ path image,
        ResultPath d' = types.StringValue path
        ∧ files (server_Create empty_xml_plan quiet_world).2 !! path = Some image
        ∧ decode_image image = Some [("unattend.xml", strconv.Quote EmptyString)].
Proof.
  eexists. split; [by vm_compute|].
  eapply (Create_empty_xml_adds_unattend (declaration "answer.iso" "tmp" EmptyString)
            _ quiet_world).
  - reflexivity.
  - apply surjective_pairing.
  - by vm_compute.
Defined.

(** C4 on the payload [<x/>]: six bytes are stored, quotes included. *)
Lemma Create_stores_quoted_xml_run :
  ∃ d', State (server_Create answer_plan quiet_world).1 = Some d'
    ∧ ∃ path image,
        ResultPath d' = types.StringValue path
        ∧ files (server_Create answer_plan quiet_world).2 !! path = Some image
        ∧ decode_image image =
            Some [("unattend.xml",
                   String dquote (escape "<x/>" +:+ String dquote EmptyString))]
        ∧ ((∀ rest, "<x/>" ≠ String dquote rest) →
           String dquote (escape "<x/>" +:+ String dquote EmptyString) ≠ "<x/>").
Proof.
  eexists. split; [by vm_compute|].
  eapply (Create_stores_quoted_xml (declaration "answer.iso" "tmp" "<x/>")
            _ "<x/>" quiet_world).
  - reflexivity.
  - discriminate.
  - apply surjective_pairing.
  - by vm_compute.
Defined.

(** C5 in a world where the ISO writer cannot start. *)
Lemma Create_failure_commits_nothing_run :
  step_fails WriterInit answer_plan no_staging_world
  ∧ diag.HasError (Diagnostics (server_Create answer_plan no_staging_world).1) = true
  ∧ State (server_Create answer_plan no_staging_world).1 = None.
Proof.
  split; [by eexists|].
  apply (Create_failure_commits_nothing WriterInit). by eexists.
Defined.

(** C7 after the first run in the quiet world: an [Update] whose plan
    carries another payload. *)
Lemma Update_no_filesystem_effect_run :
  State (server_Update changed_plan (Some answer_saved)
           (server_Create answer_plan quiet_world).2).1 = changed_plan
  ∧ ∃ path,
      ResultPath answer_saved = types.StringValue path
      ∧ files (server_Create answer_plan quiet_world).2 !! path
        = Some (image_of (now quiet_world) (declaration "answer.iso" "tmp" "<x/>"))
      ∧ files (server_Update changed_plan
                 (State (server_Create answer_plan quiet_world).1)
                 (server_Create answer_plan quiet_world).2).2 !! path
        = Some (image_of (now quiet_world) (declaration "answer.iso" "tmp" "<x/>")).
Proof.
  destruct Update_no_filesystem_effect as [Hframe Hafter]. split.
  - by apply (Hframe changed_plan).
  - apply (Hafter (declaration "answer.iso" "tmp" "<x/>") quiet_world
             _ _ answer_saved changed_plan).
    + apply surjective_pairing.
    + by vm_compute.
Defined.

(** C8 after the first run in the quiet world. *)
Lemma Delete_keeps_image_file_run :
  ∃ path,
    ResultPath answer_saved = types.StringValue path
    ∧ files (server_Create answer_plan quiet_world).2 !! path
      = Some (image_of (now quiet_world) (declaration "answer.iso" "tmp" "<x/>"))
    ∧ State (server_Delete (State (server_Create answer_plan quiet_world).1)
               (server_Create answer_plan quiet_world).2).1 = None
    ∧ files (server_Delete (State (server_Create answer_plan quiet_world).1)
               (server_Create answer_plan quiet_world).2).2 !! path
      = Some (image_of (now quiet_world) (declaration "answer.iso" "tmp" "<x/>")).
Proof.
  destruct Delete_keeps_image_file as [_ Hafter].
  apply (Hafter (declaration "answer.iso" "tmp" "<x/>") quiet_world _ _ answer_saved).
  - apply surjective_pairing.
  - by vm_compute.
Defined.

(** C9, as the claim has it, fails: after a successful [Create], and after
    one whose write failed, the handle acquired for the destination file is
    among the open ones. *)
Lemma Create_returns_with_handle_open :
  acquires answer_plan quiet_world (os.mkFile answer_path)
  ∧ (answer_path ∉ open_files quiet_world)
  ∧ State (server_Create answer_plan quiet_world).1 = Some answer_saved
  ∧ (answer_path ∈ open_files (server_Create answer_plan quiet_world).2)
  ∧ acquires answer_plan short_write_world (os.mkFile answer_path)
  ∧ diag.HasError (Diagnostics (server_Create answer_plan short_write_world).1) = true
  ∧ (answer_path ∈ open_files (server_Create answer_plan short_write_world).2).
Proof.
  split; [|split; [|split; [|split; [|split; [|split]]]]].
  - eexists _, _. split; [reflexivity|]. by vm_compute.
  - apply not_elem_of_nil.
  - by vm_compute.
  - vm_compute. apply list_elem_of_here.
  - eexists _, _. split; [reflexivity|]. by vm_compute.
  - by vm_compute.
  - vm_compute. apply list_elem_of_here.
Defined.

(** C9, as the code has it, on the run whose write fails. *)
Lemma Create_leaves_handle_open_run :
  acquires answer_plan short_write_world (os.mkFile answer_path)
  ∧ open_files (server_Create answer_plan short_write_world).2
    = answer_path :: open_files short_write_world
  ∧ (fault_Cleanup (faults short_write_world) = None →
     staging (server_Create answer_plan short_write_world).2
     = staging short_write_world).
Proof.
  assert (acquires answer_plan short_write_world (os.mkFile answer_path)) as Hacq.
  { eexists _, _. split; [reflexivity|]. by vm_compute. }
  split; [exact Hacq|].
  exact (Create_leaves_handle_open answer_plan short_write_world _ Hacq).
Defined.

(** C10 on two different declarations. *)
Lemma Create_assigns_constant_id_run :
  ∃ d1 d2,
    State (server_Create answer_plan quiet_world).1 = Some d1
    ∧ State (server_Create data_plan quiet_world).1 = Some d2
    ∧ PathOverride d1 ≠ PathOverride d2
    ∧ Id d1 = types.StringValue "example-id" ∧ Id d2 = Id d1.
Proof.
  eexists _, _. split; [by vm_compute|]. split; [by vm_compute|].
  split; [discriminate|].
  eapply (Create_assigns_constant_id answer_plan data_plan quiet_world quiet_world);
    by vm_compute.
Defined.

(** ** The further properties on concrete runs *)

Lemma acquires_in_short_write_world :
  acquires answer_plan short_write_world (os.mkFile answer_path).
Proof. eexists _, _. split; [reflexivity|]. by vm_compute. Qed.

(** X3 in the world whose disk takes three bytes. *)
Lemma Create_short_write_leaves_partial_file_run :
  fault_write (faults short_write_world) = Some (3%nat, "no space left on device")
  ∧ State (server_Create answer_plan short_write_world).1 = None
  ∧ diag.HasError (Diagnostics (server_Create answer_plan short_write_world).1) = true
  ∧ files short_write_world !! answer_path = None
  ∧ files (server_Create answer_plan short_write_world).2
    = <[answer_path :=
          string_take 3 (image_of (now short_write_world)
                           (declaration "answer.iso" "tmp" "<x/>"))]>
        (files short_write_world).
Proof.
  split; [reflexivity|].
  exact (Create_short_write_leaves_partial_file
           (declaration "answer.iso" "tmp" "<x/>") short_write_world
           (os.mkFile answer_path) 3 "no space left on device"
           acquires_in_short_write_world eq_refl).
Defined.

(** X4 in the world where the ISO writer cannot start. *)
Lemma Create_failure_before_write_leaves_no_trace_run :
  step_fails WriterInit answer_plan no_staging_world
  ∧ files (server_Create answer_plan no_staging_world).2 = files no_staging_world
  ∧ open_files (server_Create answer_plan no_staging_world).2
    = open_files no_staging_world.
Proof.
  split; [by eexists|].
  apply (Create_failure_before_write_leaves_no_trace WriterInit);
    [discriminate|by eexists].
Defined.

(** X6 in the world where the staging directory cannot be removed: a state
    is saved and an error is reported. *)
Lemma Create_saved_state_error_iff_Cleanup_run :
  is_Some (State (server_Create answer_plan no_cleanup_world).1)
  ∧ diag.HasError (Diagnostics (server_Create answer_plan no_cleanup_world).1) = true.
Proof.
  assert (is_Some (State (server_Create answer_plan no_cleanup_world).1)) as Hst
    by (vm_compute; by eexists).
  split; [exact Hst|].
  apply (Create_saved_state_error_iff_Cleanup answer_plan no_cleanup_world Hst).
  by eexists.
Defined.

(** X8 in the world where the first name is taken: the second is used. *)
Lemma Create_retries_on_collision_run :
  files collision_world !! answer_path = Some "old"
  ∧ State (server_Create answer_plan collision_world).1 =
      Some (set_ResultPath (types.StringValue second_path)
              (set_Id (types.StringValue "example-id")
                 (declaration "answer.iso" "tmp" "<x/>")))
  ∧ rand_pos (server_Create answer_plan collision_world).2 = 2%nat.
Proof.
  split; [by vm_compute|].
  assert (calm collision_world) as Hcalm by (by vm_compute).
  assert (1 < os.maxTries)%nat as Hlt by (rewrite maxTries_succ; lia).
  assert (∀ i, (i < 1)%nat →
            is_Some (files collision_world
                     !! temp_name (strconv.Quote "answer.iso") EmptyString
                          (rand collision_world (rand_pos collision_world + i))))
    as Htaken.
  { intros i Hi. assert (i = 0%nat) as -> by lia. vm_compute. by eexists. }
  pose proof (Create_retries_on_collision (declaration "answer.iso" "tmp" "<x/>")
                collision_world (strconv.Quote "answer.iso") EmptyString 1
                Hcalm eq_refl Hlt Htaken eq_refl) as Hrun.
  vm_compute in Hrun. vm_compute. exact Hrun.
Defined.

(** X9 in the world whose random source is stuck on a taken name. *)
Lemma Create_gives_up_after_maxTries_run :
  State (server_Create answer_plan stuck_world).1 = None
  ∧ diag.HasError (Diagnostics (server_Create answer_plan stuck_world).1) = true
  ∧ files (server_Create answer_plan stuck_world).2 = files stuck_world
  ∧ open_files (server_Create answer_plan stuck_world).2 = open_files stuck_world
  ∧ rand_pos (server_Create answer_plan stuck_world).2
    = (rand_pos stuck_world + os.maxTries)%nat.
Proof.
  apply (Create_gives_up_after_maxTries (declaration "answer.iso" "tmp" "<x/>")
           stuck_world (strconv.Quote "answer.iso") EmptyString);
    try reflexivity.
  intros i _. vm_compute. by eexists.
Defined.

(** X10 on the first run in the quiet world: no star, the digit 7 follows
    the closing quote. *)
Lemma Create_name_shape_run :
  State (server_Create answer_plan quiet_world).1 = Some answer_saved
  ∧ ∃ n,
      (string_exists (Ascii.eqb "*")
         (types.String_ (FileName (declaration "answer.iso" "tmp" "<x/>"))) = false
       ∧ ResultPath answer_saved = types.StringValue
           ("/tmp/" +:+ types.String_ (FileName (declaration "answer.iso" "tmp" "<x/>"))
              +:+ pretty (n `mod` 2 ^ 32)%N))
      ∨ (∃ p q,
           types.String_ (FileName (declaration "answer.iso" "tmp" "<x/>"))
             = p +:+ String "*" q
           ∧ string_exists (Ascii.eqb "*") q = false
           ∧ ResultPath answer_saved = types.StringValue
               ("/tmp/" +:+ p +:+ pretty (n `mod` 2 ^ 32)%N +:+ q)).
Proof.
  assert (State (server_Create answer_plan quiet_world).1 = Some answer_saved) as Hst
    by (by vm_compute).
  split; [exact Hst|].
  exact (Create_name_shape (declaration "answer.iso" "tmp" "<x/>") answer_saved
           quiet_world _ _ (surjective_pairing _) Hst).
Defined.

(** X11 on the file name [a/b.iso], with the escaping of ASCII text. *)
Lemma Create_rejects_slash_run :
  (∀ s, string_exists os.IsPathSeparator s = true →
        string_exists os.IsPathSeparator (ascii_escape s) = true)
  ∧ string_exists os.IsPathSeparator "a/b.iso" = true
  ∧ State (server_Create (Some (declaration "a/b.iso" "tmp" "<x/>")) quiet_world).1 = None
  ∧ diag.HasError
      (Diagnostics
         (server_Create (Some (declaration "a/b.iso" "tmp" "<x/>")) quiet_world).1) = true
  ∧ files (server_Create (Some (declaration "a/b.iso" "tmp" "<x/>")) quiet_world).2
    = files quiet_world
  ∧ open_files (server_Create (Some (declaration "a/b.iso" "tmp" "<x/>")) quiet_world).2
    = open_files quiet_world
  ∧ rand_pos (server_Create (Some (declaration "a/b.iso" "tmp" "<x/>")) quiet_world).2
    = rand_pos quiet_world.
Proof.
  split; [exact ascii_escape_keeps_separator|]. split; [reflexivity|].
  exact (Create_rejects_slash (declaration "a/b.iso" "tmp" "<x/>") "a/b.iso"
           quiet_world ascii_escape_keeps_separator eq_refl eq_refl).
Defined.

(** X15 on the id [iso-1]. *)
Lemma ImportState_then_Read_run :
  server_ImportState "iso-1" quiet_world
    = (mkResponse [] (Some (set_Id (types.StringValue "iso-1") zero_Model)), quiet_world)
  ∧ server_Read (State (server_ImportState "iso-1" quiet_world).1)
      (server_ImportState "iso-1" quiet_world).2
    = (mkResponse [] (Some (mkModel (types.StringValue "iso-1") types.StringNull
                              types.StringNull types.StringNull types.StringNull)),
       quiet_world).
Proof.
  apply (ImportState_then_Read "iso-1" quiet_world). discriminate.
Defined.

(** X12 on two runs of the same declaration with a [Delete] in between. *)
Lemma Create_Delete_Create_leaves_old_image_run :
  State (server_Create answer_plan quiet_world).1 = Some answer_saved
  ∧ ∃ d2' p1 p2,
      State (server_Create answer_plan
               (server_Delete (State (server_Create answer_plan quiet_world).1)
                  (server_Create answer_plan quiet_world).2).2).1 = Some d2'
      ∧ ResultPath answer_saved = types.StringValue p1
      ∧ ResultPath d2' = types.StringValue p2
      ∧ p1 ≠ p2
      ∧ files (server_Create answer_plan
                 (server_Delete (State (server_Create answer_plan quiet_world).1)
                    (server_Create answer_plan quiet_world).2).2).2 !! p1
        = Some (image_of (now quiet_world) (declaration "answer.iso" "tmp" "<x/>"))
      ∧ is_Some
          (files (server_Create answer_plan
                    (server_Delete (State (server_Create answer_plan quiet_world).1)
                       (server_Create answer_plan quiet_world).2).2).2 !! p2)
      ∧ State (server_Delete (State (server_Create answer_plan quiet_world).1)
                 (server_Create answer_plan quiet_world).2).1 = None.
Proof.
  assert (State (server_Create answer_plan quiet_world).1 = Some answer_saved) as Hst
    by (by vm_compute).
  split; [exact Hst|].
  eexists. 
  assert (∀ d2' (Hst2 :
            State (server_Create answer_plan
               (server_Delete (State (server_Create answer_plan quiet_world).1)
                  (server_Create answer_plan quiet_world).2).2).1 = Some d2'),
          _) as Hthm
    by exact (λ d2' Hst2,
        Create_Delete_Create_leaves_old_image
          (declaration "answer.iso" "tmp" "<x/>") answer_saved d2' answer_plan
          quiet_world _ _ _ _ (surjective_pairing _) Hst (surjective_pairing _) Hst2).
  edestruct (Hthm _ ltac:(by vm_compute)) as (p1 & p2 & ? & ? & ? & ? & ? & ?).
  exists p1, p2. split; [by vm_compute|]. done.
Defined.

End Runs.
